(** * jet2-price-tracker: the pricing core of the dashboard

    A shallow embedding of the two data-shaping functions of the dashboard
    component, [generateDemoData] (the synthetic price generator) and
    [buildLiveMonths] (the normaliser of scraped records), together with the
    start-up fetch of [pricing_data.json], and the properties the
    specification states about them.

    JavaScript Numbers are IEEE 754 binary64 values; they are modelled by
    [spec_float] with precision 53 and maximal exponent 1024, whose
    operations are plain functions on [positive] and [Z]. *)

From Stdlib Require Import ZArith NArith PArith List String Ascii Bool Lia.
From Stdlib Require Import SpecFloat DecimalString.
Import ListNotations.

Local Open Scope string_scope.
Local Open Scope Z_scope.

(* ================================================================= *)
(** ** JavaScript Numbers *)

Module JS.

Definition Number := spec_float.

Definition add : Number -> Number -> Number := SFadd 53 1024.
Definition sub : Number -> Number -> Number := SFsub 53 1024.
Definition mul : Number -> Number -> Number := SFmul 53 1024.
Definition div : Number -> Number -> Number := SFdiv 53 1024.

(** [x < y], [x > y] and [x === y] on Numbers. *)
Definition lt (x y : Number) : bool := SFltb x y.
Definition gt (x y : Number) : bool := lt y x.
Definition strict_eq (x y : Number) : bool := SFeqb x y.

Definition NaN : Number := S754_nan.
Definition Infinity : Number := S754_infinity false.

(** The Number of an integer literal or of an integer-valued loop counter. *)
Definition of_Z (z : Z) : Number := binary_normalize 53 1024 z 0 false.

(** The Number of a decimal literal [n/d] with [d] a power of ten, such as
    [.15 = dec 15 100]: numerator and denominator are exact and the
    division rounds to nearest, which is how the literal is read. *)
Definition dec (n d : Z) : Number := div (of_Z n) (of_Z d).

(** ToBoolean on a Number: [NaN], [+0] and [-0] are falsy. *)
Definition truthy (x : Number) : bool :=
  match x with
  | S754_nan | S754_zero _ => false
  | _ => true
  end.

(** [Math.floor]. *)
Definition Math_floor (x : Number) : Number :=
  match x with
  | S754_finite s m e =>
      if 0 <=? e then x
      else
        let n := (if s then Z.neg m else Z.pos m) / 2 ^ (- e) in
        binary_normalize 53 1024 n 0 s
  | _ => x
  end.

(** [Math.round]: the nearest integer, ties towards +Infinity; a result of
    zero keeps the sign of the argument. *)
Definition Math_round (x : Number) : Number :=
  match x with
  | S754_finite s m e =>
      if 0 <=? e then x
      else
        let k := 2 ^ (- e) in
        let n := (2 * (if s then Z.neg m else Z.pos m) + k) / (2 * k) in
        binary_normalize 53 1024 n 0 s
  | _ => x
  end.

(** [Math.max] of two Numbers. *)
Definition Math_max (x y : Number) : Number :=
  match x, y with
  | S754_nan, _ | _, S754_nan => S754_nan
  | S754_zero sx, S754_zero sy => S754_zero (sx && sy)
  | _, _ => if lt x y then y else x
  end.

(** ToString of an integer-valued Number below 10^21. *)
Definition string_of_Z (z : Z) : string := NilZero.string_of_int (Z.to_int z).

(** [c.charCodeAt(0)] for a one-unit string; strings here hold code units
    below 256. *)
Definition charCode (c : ascii) : Number := of_Z (Z.of_N (N_of_ascii c)).

End JS.

(* ================================================================= *)
(** ** A reference sine

    ECMAScript leaves [Math.sin] implementation-approximated, so the
    generator below takes it as a parameter.  To run the generator on
    concrete inputs, [SinRef.sin] computes the sine of a binary64 argument
    in 200-bit fixed point (argument reduced modulo pi/2, Taylor
    polynomial) and rounds the result to the nearest binary64.  It is
    meant for arguments of moderate size, as the seeds of the generator
    are. *)

Module SinRef.

Definition P : Z := 200.
Definition one : Z := 2 ^ P.

(** [atan (1/q)] by its alternating series, [term = one / q^(2k+1)]. *)
Fixpoint atan_inv_series (fuel : nat) (q2 term k acc : Z) : Z :=
  match fuel with
  | O => acc
  | S fuel' =>
      let t := term / (2 * k + 1) in
      atan_inv_series fuel' q2 (term / q2) (k + 1)
        (if Z.even k then acc + t else acc - t)
  end.

Definition atan_inv (q : Z) : Z := atan_inv_series 100 (q * q) (one / q) 0 0.

(** Machin: pi = 16 atan(1/5) - 4 atan(1/239). *)
Definition pi_fix : Z := Eval vm_compute in 16 * atan_inv 5 - 4 * atan_inv 239.

(** Sum of [term - term*r2/(k+1)(k+2) + ...], the Taylor series of sine
    ([term = r], [k = 1]) and of cosine ([term = one], [k = 0]). *)
Fixpoint taylor (fuel : nat) (r2 term k acc : Z) : Z :=
  match fuel with
  | O => acc
  | S fuel' =>
      taylor fuel' r2 (- (term * r2 / one) / ((k + 1) * (k + 2))) (k + 2)
        (acc + term)
  end.

Definition sin_fix (r : Z) : Z := taylor 32 (r * r / one) r 1 0.
Definition cos_fix (r : Z) : Z := taylor 32 (r * r / one) one 0 0.

Definition sin (x : JS.Number) : JS.Number :=
  match x with
  | S754_finite s m e =>
      if Z.pos (digits2_pos m) + e <=? -26 then x
      else
        let X := Z.shiftl (Z.pos m) (e + P) in
        let half_pi := pi_fix / 2 in
        let k := (2 * X + half_pi) / (2 * half_pi) in
        let r := X - k * half_pi in
        let v :=
          match k mod 4 with
          | 0 => sin_fix r
          | 1 => cos_fix r
          | 2 => - sin_fix r
          | _ => - cos_fix r
          end in
        binary_normalize 53 1024 (if s then - v else v) (- P) s
  | S754_infinity _ => S754_nan
  | _ => x
  end.

End SinRef.

(* ================================================================= *)
(** ** Objects and arrays *)

(** An object is the list of its own properties in creation order.
    Assigning to an existing key keeps its place; assigning an object to
    the key [__proto__] replaces the prototype and creates no own
    property. *)
Definition Obj (A : Type) := list (string * A).

Fixpoint obj_get {A} (k : string) (o : Obj A) : option A :=
  match o with
  | [] => None
  | (k', v) :: o' => if String.eqb k k' then Some v else obj_get k o'
  end.

Fixpoint obj_put {A} (k : string) (v : A) (o : Obj A) : Obj A :=
  match o with
  | [] => [(k, v)]
  | (k', v') :: o' =>
      if String.eqb k k' then (k', v) :: o' else (k', v') :: obj_put k v o'
  end.

Definition obj_set {A} (k : string) (v : A) (o : Obj A) : Obj A :=
  if String.eqb k "__proto__" then o else obj_put k v o.

(** Array-index keys ("0", "7", "42", ... below 2^32 - 1) are enumerated
    first, in ascending numeric order, and the other keys follow in
    creation order. *)
Definition digit_of (c : ascii) : option N :=
  let n := N_of_ascii c in
  if ((48 <=? n) && (n <=? 57))%N then Some (n - 48)%N else None.

Fixpoint digits_value (cs : list ascii) (acc : N) : option N :=
  match cs with
  | [] => Some acc
  | c :: cs' =>
      match digit_of c with
      | Some d => digits_value cs' (10 * acc + d)%N
      | None => None
      end
  end.

Definition array_index (k : string) : option N :=
  match list_ascii_of_string k with
  | [] => None
  | c :: cs =>
      if (Ascii.eqb c "0" && negb (Nat.eqb (List.length cs) 0)) then None
      else if (10 <? List.length (c :: cs))%nat then None
      else
        match digits_value (c :: cs) 0 with
        | Some n => if (n <? 4294967295)%N then Some n else None
        | None => None
        end
  end.

Fixpoint insert_by_index {A} (n : N) (v : A) (l : list (N * A)) : list (N * A) :=
  match l with
  | [] => [(n, v)]
  | (n', v') :: l' =>
      if (n <? n')%N then (n, v) :: l else (n', v') :: insert_by_index n v l'
  end.

Fixpoint indexed_props {A} (o : Obj A) : list (N * A) :=
  match o with
  | [] => []
  | (k, v) :: o' =>
      match array_index k with
      | Some n => insert_by_index n v (indexed_props o')
      | None => indexed_props o'
      end
  end.

Fixpoint named_props {A} (o : Obj A) : list A :=
  match o with
  | [] => []
  | (k, v) :: o' =>
      match array_index k with
      | Some _ => named_props o'
      | None => v :: named_props o'
      end
  end.

Definition Object_values {A} (o : Obj A) : list A :=
  (map snd (indexed_props o) ++ named_props o)%list.

(** [a.indexOf(x)] on an array of strings. *)
Fixpoint indexOf_from (x : string) (a : list string) (i : Z) : Z :=
  match a with
  | [] => -1
  | y :: a' => if String.eqb x y then i else indexOf_from x a' (i + 1)
  end.

Definition indexOf (x : string) (a : list string) : Z := indexOf_from x a 0.

(** [a.forEach((x, i) => ...)] threading the variables the callback
    assigns. *)
Definition forEach_i {A S} (f : S -> nat -> A -> S) (a : list A) (s : S) : S :=
  fold_left (fun s ix => f s (fst ix) (snd ix)) (combine (seq 0 (List.length a)) a) s.

(** An undefined operand of an arithmetic operator is NaN. *)
Definition to_number (v : option JS.Number) : JS.Number :=
  match v with
  | Some x => x
  | None => JS.NaN
  end.

(* ================================================================= *)
(** ** The price grid *)

Definition MONTHS : list string :=
  ["Jan"; "Feb"; "Mar"; "Apr"; "May"; "Jun"; "Jul"; "Aug"; "Sep"; "Oct"; "Nov"; "Dec"].
Definition ROOM_TYPES : list string :=
  ["Standard Double"; "Superior Double"; "Family Room"; "Suite"; "Sea View Double"].
Definition BOARD_TYPES : list string :=
  ["Self Catering"; "Bed & Breakfast"; "Half Board"; "Full Board"; "All Inclusive"].
Definition DURATIONS : list Z := [3; 5; 7; 10; 14].

Record Room := {
  price : JS.Number;
  available : bool;
  perNight : JS.Number
}.

Record Month := {
  month : string;
  year : JS.Number;
  rooms : Obj Room;
  cheapest : JS.Number;
  mostExpensive : JS.Number;
  avgPrice : JS.Number;
  availability : string
}.

(** What [new Date()] reads off the clock; the generator uses the month
    (0 = January) and the year. *)
Record Date := {
  getFullYear : Z;
  getMonth : nat;
  getDate : nat
}.

(** The variables a month's loop over the room types assigns. *)
Record Scan := {
  scan_rooms : Obj Room;
  ch : JS.Number;
  mx : JS.Number
}.

Definition scan_start : Scan :=
  {| scan_rooms := []; ch := JS.Infinity; mx := JS.of_Z 0 |}.

Definition count_available (rs : Obj Room) : Z :=
  Z.of_nat (List.length (filter available (Object_values rs))).

(* ================================================================= *)
(** ** generateDemoData *)

(** [generateDemoData(hotel, airport, duration, board)].  [Math.sin] is
    the engine's; [now] is what the call's [new Date()] reads.  The
    duration is an integer, as the selector over [DURATIONS] supplies
    ([+e.target.value]), and joins the seed string in decimal notation. *)

Section Generator.

Variable Math_sin : JS.Number -> JS.Number.

Definition seed_of (hotel airport : string) (duration : Z) (board : string) : JS.Number :=
  fold_left (fun a c => JS.add a (JS.charCode c))
    (list_ascii_of_string (hotel ++ airport ++ JS.string_of_Z duration ++ board))
    (JS.of_Z 0).

Definition rng (seed : JS.Number) (i : Z) : JS.Number :=
  let x := JS.mul (Math_sin (JS.add seed (JS.of_Z i))) (JS.of_Z 10000) in
  JS.sub x (JS.Math_floor x).

Definition sm : list JS.Number :=
  [JS.dec 7 10; JS.dec 65 100; JS.dec 75 100; JS.dec 85 100; JS.of_Z 1; JS.dec 125 100;
   JS.dec 15 10; JS.dec 155 100; JS.dec 12 10; JS.dec 9 10; JS.dec 7 10; JS.dec 65 100].

Definition dm_of (duration : Z) : JS.Number :=
  if duration <=? 3 then JS.dec 5 10
  else if duration <=? 5 then JS.dec 7 10
  else if duration <=? 7 then JS.of_Z 1
  else if duration <=? 10 then JS.dec 135 100
  else JS.dec 17 10.

Definition bm_of (board : string) : JS.Number :=
  JS.add (JS.mul (JS.of_Z (indexOf board BOARD_TYPES)) (JS.dec 12 100)) (JS.dec 85 100).

Definition rm : Obj JS.Number :=
  [("Standard Double", JS.of_Z 1); ("Superior Double", JS.dec 12 10);
   ("Sea View Double", JS.dec 135 100); ("Family Room", JS.dec 145 100);
   ("Suite", JS.dec 19 10)].

(** The two index streams of the per-room draws. *)
Definition jitter_index (i ri : nat) : Z := Z.of_nat (i * 10 + ri).
Definition avail_index (i ri : nat) : Z := Z.of_nat (i * 100 + ri).

Section Call.

Variable now : Date.
Variables hotel airport : string.
Variable duration : Z.
Variable board : string.

Let seed := seed_of hotel airport duration board.
Let bp := JS.add (JS.of_Z 400) (JS.mul (rng seed 1) (JS.of_Z 600)).
Let dm := dm_of duration.
Let bm := bm_of board.

(** The body of [ROOM_TYPES.forEach((rt, ri) => ...)] in month [i]: the
    entry stored under [rt], then the update of [ch] and [mx]. *)
Definition demo_room (i mi ri : nat) (rt : string) : Room :=
  let p :=
    JS.Math_round
      (JS.mul (JS.mul (JS.mul (JS.mul (JS.mul bp (nth mi sm JS.NaN)) dm) bm)
                 (to_number (obj_get rt rm)))
         (JS.add (JS.dec 95 100) (JS.mul (rng seed (jitter_index i ri)) (JS.dec 1 10)))) in
  let av := JS.gt (rng seed (avail_index i ri)) (JS.dec 15 100) in
  {| price := p; available := av; perNight := JS.Math_round (JS.div p (JS.of_Z duration)) |}.

Definition demo_step (i mi : nat) (s : Scan) (ri : nat) (rt : string) : Scan :=
  let r := demo_room i mi ri rt in
  let p := price r in
  let ch1 := if JS.lt p (ch s) then p else ch s in
  let mx1 := if JS.gt p (mx s) then p else mx s in
  {| scan_rooms := obj_set rt r (scan_rooms s); ch := ch1; mx := mx1 |}.

(** The body of [for (let i = 0; i < 12; i++)]: the entry pushed. *)
Definition demo_month (i : nat) : Month :=
  let mi := ((getMonth now + i) mod 12)%nat in
  let yr := getFullYear now + (if (12 <=? getMonth now + i)%nat then 1 else 0) in
  let s := forEach_i (demo_step i mi) ROOM_TYPES scan_start in
  let rooms := scan_rooms s in
  {| month := nth mi MONTHS EmptyString;
     year := JS.of_Z yr;
     rooms := rooms;
     cheapest := ch s;
     mostExpensive := mx s;
     avgPrice :=
       JS.Math_round
         (JS.div (fold_left (fun a r => JS.add a (price r)) (Object_values rooms) (JS.of_Z 0))
            (JS.of_Z (Z.of_nat (List.length ROOM_TYPES))));
     availability :=
       JS.string_of_Z (count_available rooms) ++ "/"
       ++ JS.string_of_Z (Z.of_nat (List.length ROOM_TYPES)) |}.

Definition generateDemoData : list Month :=
  fold_left (fun months i => (months ++ [demo_month i])%list) (seq 0 12) [].

End Call.

End Generator.

(* ================================================================= *)
(** ** Abrupt completion

    A call either returns or throws; [x <- c ;; k] runs [k] on the value
    [c] returns and propagates what it throws. *)

Inductive Error := TypeError | FetchError.

Inductive Completion (A : Type) :=
  | Normal (a : A)
  | Throw (e : Error).

Arguments Normal {A} a.
Arguments Throw {A} e.

Definition bind {A B} (c : Completion A) (k : A -> Completion B) : Completion B :=
  match c with
  | Normal a => k a
  | Throw e => Throw e
  end.

Notation "x <- c ;; k" := (bind c (fun x => k))
  (at level 61, c at next level, right associativity).

Fixpoint foldM {A S} (f : S -> A -> Completion S) (l : list A) (s : S) : Completion S :=
  match l with
  | [] => Normal s
  | a :: l' => s' <- f s a ;; foldM f l' s'
  end.

Fixpoint mapM {A B} (f : A -> Completion B) (l : list A) : Completion (list B) :=
  match l with
  | [] => Normal []
  | a :: l' => b <- f a ;; bs <- mapM f l' ;; Normal (b :: bs)
  end.

(* ================================================================= *)
(** ** buildLiveMonths *)

(** The records of [pricing_data.json] as the dashboard reads them.  A
    field the document may lack is an [option]; [price_pp] is a Number
    when present. *)
Module Scraped.

Record RoomData := {
  price_pp : option JS.Number
}.

Record MonthRec := {
  month_label : option string;
  month_key : option string;
  rooms : option (Obj RoomData)
}.

Record Hotel := {
  _months : option (list MonthRec);
  _roomTypes : option (list string)
}.

End Scraped.

Record LiveGrid := {
  months : list Month;
  roomTypes : list string
}.

(** [a || b] on an optional string: undefined and the empty string are
    falsy. *)
Definition or_string (a : option string) (b : string) : string :=
  match a with
  | Some s => if String.eqb s EmptyString then b else s
  | None => b
  end.

(** [label.split(" ")]. *)
Fixpoint split_space (cs : list ascii) (cur : string) : list string :=
  match cs with
  | [] => [cur]
  | c :: cs' =>
      if Ascii.eqb c " " then cur :: split_space cs' EmptyString
      else split_space cs' (cur ++ String c EmptyString)
  end.

Definition split (label : string) : list string :=
  split_space (list_ascii_of_string label) EmptyString.

Definition sum_prices (rs : list Room) : JS.Number :=
  fold_left (fun a r => JS.add a (price r)) rs (JS.of_Z 0).

Definition priced (r : Room) : bool := JS.gt (price r) (JS.of_Z 0).

Section Normalizer.

(** [parseInt] of the engine, applied to the year part of a label. *)
Variable parseInt : string -> JS.Number.

(** [rd && rd.price_pp > 0]: the raw price when the test passes. *)
Definition raw_price (o : Obj Scraped.RoomData) (r : string) : option JS.Number :=
  match obj_get r o with
  | Some rd =>
      match Scraped.price_pp rd with
      | Some pp => if JS.gt pp (JS.of_Z 0) then Some pp else None
      | None => None
      end
  | None => None
  end.

(** The body of [rt.forEach(r => ...)] for the month [m]; reading
    [m.rooms[r]] throws a TypeError when [m.rooms] is undefined. *)
Definition live_step (d : Z) (m : Scraped.MonthRec) (s : Scan) (r : string) : Completion Scan :=
  match Scraped.rooms m with
  | None => Throw TypeError
  | Some o =>
      match raw_price o r with
      | Some pp =>
          let room :=
            {| price := JS.Math_round pp; available := true;
               perNight := JS.Math_round (JS.div pp (JS.of_Z d)) |} in
          Normal {| scan_rooms := obj_set r room (scan_rooms s);
                    ch := if JS.lt pp (ch s) then pp else ch s;
                    mx := if JS.gt pp (mx s) then pp else mx s |}
      | None =>
          let room := {| price := JS.of_Z 0; available := false; perNight := JS.of_Z 0 |} in
          Normal {| scan_rooms := obj_set r room (scan_rooms s); ch := ch s; mx := mx s |}
      end
  end.

(** The callback of [h._months.map(m => ...)]. *)
Definition live_month (rt : list string) (d : Z) (m : Scraped.MonthRec) : Completion Month :=
  s <- foldM (live_step d m) rt scan_start ;;
  let rooms := scan_rooms s in
  let label := or_string (Scraped.month_label m) (or_string (Scraped.month_key m) EmptyString) in
  let parts := split label in
  let y := parseInt (match nth_error parts 1 with Some p => p | None => "undefined" end) in
  Normal
    {| month := or_string (nth_error parts 0) EmptyString;
       year := if JS.truthy y then y else JS.of_Z 2026;
       rooms := rooms;
       cheapest := if JS.strict_eq (ch s) JS.Infinity then JS.of_Z 0 else JS.Math_round (ch s);
       mostExpensive := JS.Math_round (mx s);
       avgPrice :=
         JS.Math_round
           (JS.div (sum_prices (filter priced (Object_values rooms)))
              (JS.Math_max
                 (JS.of_Z (Z.of_nat (List.length (filter priced (Object_values rooms)))))
                 (JS.of_Z 1)));
       availability :=
         JS.string_of_Z (count_available rooms) ++ "/"
         ++ JS.string_of_Z (Z.of_nat (List.length rt)) |}.

(** The filter [m => m.cheapest > 0]. *)
Definition valid_month (m : Month) : bool := JS.gt (cheapest m) (JS.of_Z 0).

(** [buildLiveMonths(h, ap, d)]; the result is [Normal None] for [null]. *)
Definition buildLiveMonths (h : Scraped.Hotel) (ap : string) (d : Z)
  : Completion (option LiveGrid) :=
  match Scraped._months h with
  | None | Some [] => Normal None
  | Some ms =>
      let rt := match Scraped._roomTypes h with Some l => l | None => ROOM_TYPES end in
      match rt with
      | [] => Normal None
      | _ =>
          months <- mapM (live_month rt d) ms ;;
          let validMonths := filter valid_month months in
          match validMonths with
          | [] => Normal None
          | _ => Normal (Some {| months := validMonths; roomTypes := rt |})
          end
      end
  end.

End Normalizer.

(** A reference [parseInt]: leading white space, a sign, a [0x] prefix,
    then the longest run of digits of the radix. *)
Module ParseIntRef.

Definition is_space (c : ascii) : bool :=
  let n := N_of_ascii c in
  ((n =? 32) || ((9 <=? n) && (n <=? 13)) || (n =? 160))%N.

Fixpoint skip_spaces (cs : list ascii) : list ascii :=
  match cs with
  | c :: cs' => if is_space c then skip_spaces cs' else cs
  | [] => []
  end.

Definition digit_in (radix : N) (c : ascii) : option N :=
  let n := N_of_ascii c in
  let v :=
    if ((48 <=? n) && (n <=? 57))%N then Some (n - 48)%N
    else if ((97 <=? n) && (n <=? 122))%N then Some (n - 87)%N
    else if ((65 <=? n) && (n <=? 90))%N then Some (n - 55)%N
    else None in
  match v with
  | Some d => if (d <? radix)%N then Some d else None
  | None => None
  end.

Fixpoint digits (radix : N) (cs : list ascii) (acc : option N) : option N :=
  match cs with
  | c :: cs' =>
      match digit_in radix c with
      | Some d => digits radix cs' (Some (radix * match acc with Some a => a | None => 0 end + d)%N)
      | None => acc
      end
  | [] => acc
  end.

Definition parseInt (s : string) : JS.Number :=
  let cs := skip_spaces (list_ascii_of_string s) in
  let '(neg, cs) :=
    match cs with
    | c :: cs' =>
        if Ascii.eqb c "-" then (true, cs')
        else if Ascii.eqb c "+" then (false, cs') else (false, cs)
    | [] => (false, cs)
    end in
  let '(radix, cs) :=
    match cs with
    | z :: x :: cs' =>
        if (Ascii.eqb z "0" && (Ascii.eqb x "x" || Ascii.eqb x "X"))%bool
        then (16%N, cs') else (10%N, cs)
    | _ => (10%N, cs)
    end in
  match digits radix cs None with
  | Some n =>
      binary_normalize 53 1024 (if neg then - Z.of_N n else Z.of_N n) 0 neg
  | None => JS.NaN
  end.

End ParseIntRef.

(* ================================================================= *)
(** ** The start-up fetch of pricing_data.json *)

Module Fetch.

(** A parsed JSON document. *)
#[local] Set Warnings "-register-all".
Inductive Json :=
  | JNull
  | JBool (b : bool)
  | JNum (n : JS.Number)
  | JStr (s : string)
  | JArr (l : list Json)
  | JObj (o : list (string * Json)).

(** How the request ends: [fetch] rejects, or it resolves to a response
    with its [ok] flag whose [json()] rejects or resolves to a document. *)
Inductive Body :=
  | Malformed
  | Parsed (d : Json).

Inductive Outcome :=
  | Rejected
  | Response (ok : bool) (body : Body).

Inductive LiveStatus := loading | ok | none.
Inductive Mode := demo | live.

Record Dashboard := {
  mode : Mode;
  liveData : option Json;
  liveStatus : LiveStatus
}.

Definition initial : Dashboard :=
  {| mode := demo; liveData := None; liveStatus := loading |}.

Definition setLiveStatus (s : LiveStatus) (st : Dashboard) : Dashboard :=
  {| mode := mode st; liveData := liveData st; liveStatus := s |}.
Definition setLiveData (d : Json) (st : Dashboard) : Dashboard :=
  {| mode := mode st; liveData := Some d; liveStatus := liveStatus st |}.
Definition setMode (m : Mode) (st : Dashboard) : Dashboard :=
  {| mode := m; liveData := liveData st; liveStatus := liveStatus st |}.

(** ToBoolean of a value that may be undefined. *)
Definition truthy (v : option Json) : bool :=
  match v with
  | None | Some JNull => false
  | Some (JBool b) => b
  | Some (JNum n) => JS.truthy n
  | Some (JStr s) => negb (String.eqb s EmptyString)
  | Some (JArr _) | Some (JObj _) => true
  end.

(** [d.hotels]: reading a property of [null] throws. *)
Definition get_hotels (d : Json) : Completion (option Json) :=
  match d with
  | JNull => Throw TypeError
  | JObj o => Normal (obj_get "hotels" o)
  | _ => Normal None
  end.

(** [v?.length]. *)
Definition opt_length (v : option Json) : option Json :=
  match v with
  | Some (JArr l) => Some (JNum (JS.of_Z (Z.of_nat (List.length l))))
  | Some (JStr s) => Some (JNum (JS.of_Z (Z.of_nat (String.length s))))
  | Some (JObj o) => obj_get "length" o
  | _ => None
  end.

(** The two [then] callbacks and the [catch] callback of the effect. *)
Definition on_response (ok_flag : bool) (body : Body) : Completion Json :=
  if negb ok_flag then Throw FetchError
  else match body with
       | Malformed => Throw FetchError
       | Parsed d => Normal d
       end.

Definition on_document (st : Dashboard) (d : Json) : Completion Dashboard :=
  hotels <- get_hotels d ;;
  if truthy (opt_length hotels)
  then Normal (setMode live (setLiveStatus ok (setLiveData d st)))
  else Normal (setLiveStatus none st).

Definition on_error (st : Dashboard) : Dashboard := setLiveStatus none st.

Definition startup (st : Dashboard) (o : Outcome) : Dashboard :=
  let chain :=
    d <- match o with
         | Rejected => Throw FetchError
         | Response ok_flag body => on_response ok_flag body
         end ;;
    on_document st d in
  match chain with
  | Normal st' => st'
  | Throw _ => on_error st
  end.

(** The test of the second callback, [d.hotels?.length], on a document
    whose [hotels] can be read. *)
Definition has_hotels (d : Json) : bool :=
  match get_hotels d with
  | Normal hotels => truthy (opt_length hotels)
  | Throw _ => false
  end.

End Fetch.

(* ================================================================= *)
(** ** The specification's reading of the grid

    Definitions written after the text of the specification, to be
    compared with what the code computes. *)

Definition min_step (a p : JS.Number) : JS.Number := if JS.lt p a then p else a.
Definition max_step (a p : JS.Number) : JS.Number := if JS.gt p a then p else a.

Module Spec.

(** "minimum available price across rooms in this month (0 if none
    available)", and the maximum likewise. *)
Definition cheapest (rs : Obj Room) : JS.Number :=
  match map price (filter available (Object_values rs)) with
  | [] => JS.of_Z 0
  | p :: ps => fold_left min_step ps p
  end.

Definition mostExpensive (rs : Obj Room) : JS.Number :=
  match map price (filter available (Object_values rs)) with
  | [] => JS.of_Z 0
  | p :: ps => fold_left max_step ps p
  end.

(** "the mean of available room prices only (divide-by-zero guarded to a
    minimum of 1 denominator)". *)
Definition live_avgPrice (rs : Obj Room) : JS.Number :=
  let avail := filter available (Object_values rs) in
  JS.Math_round
    (JS.div (sum_prices avail)
       (JS.Math_max (JS.of_Z (Z.of_nat (List.length avail))) (JS.of_Z 1))).

(** The synthetic average: all rooms, whatever their availability. *)
Definition demo_avgPrice (rs : Obj Room) : JS.Number :=
  JS.Math_round (JS.div (sum_prices (Object_values rs)) (JS.of_Z 5)).

(** Steps 1 to 8 of the generator's algorithm. *)
Section Price.

Variable sin : JS.Number -> JS.Number.
Variables hotelName airportCode : string.
Variable durationNights : Z.
Variable boardBasis : string.

Definition seed : JS.Number :=
  fold_left JS.add
    (map JS.charCode
       (list_ascii_of_string
          (hotelName ++ airportCode ++ JS.string_of_Z durationNights ++ boardBasis)))
    (JS.of_Z 0).

Definition frac (x : JS.Number) : JS.Number := JS.sub x (JS.Math_floor x).

Definition rand (i : Z) : JS.Number :=
  frac (JS.mul (sin (JS.add seed (JS.of_Z i))) (JS.of_Z 10000)).

Definition base : JS.Number := JS.add (JS.of_Z 400) (JS.mul (rand 1) (JS.of_Z 600)).

Definition seasonalMultiplier : list JS.Number :=
  [JS.dec 70 100; JS.dec 65 100; JS.dec 75 100; JS.dec 85 100; JS.dec 100 100;
   JS.dec 125 100; JS.dec 150 100; JS.dec 155 100; JS.dec 120 100; JS.dec 90 100;
   JS.dec 70 100; JS.dec 65 100].

Definition durationMultiplier : JS.Number :=
  if durationNights <=? 3 then JS.dec 5 10
  else if durationNights <=? 5 then JS.dec 7 10
  else if durationNights <=? 7 then JS.dec 10 10
  else if durationNights <=? 10 then JS.dec 135 100
  else JS.dec 17 10.

Fixpoint index_of (x : string) (l : list string) : Z :=
  match l with
  | [] => 0
  | y :: l' => if String.eqb x y then 0 else 1 + index_of x l'
  end.

Definition boardMultiplier : JS.Number :=
  JS.add
    (JS.mul (JS.of_Z (index_of boardBasis
       ["Self Catering"; "Bed & Breakfast"; "Half Board"; "Full Board"; "All Inclusive"]))
       (JS.dec 12 100))
    (JS.dec 85 100).

Definition roomMultiplier (roomType : string) : JS.Number :=
  if String.eqb roomType "Standard Double" then JS.dec 10 10
  else if String.eqb roomType "Superior Double" then JS.dec 12 10
  else if String.eqb roomType "Sea View Double" then JS.dec 135 100
  else if String.eqb roomType "Family Room" then JS.dec 145 100
  else if String.eqb roomType "Suite" then JS.dec 19 10
  else JS.NaN.

Definition room_price (monthIndex i roomIndex : nat) (roomType : string) : JS.Number :=
  JS.Math_round
    (JS.mul
       (JS.mul
          (JS.mul
             (JS.mul (JS.mul base (nth monthIndex seasonalMultiplier JS.NaN))
                durationMultiplier)
             boardMultiplier)
          (roomMultiplier roomType))
       (JS.add (JS.dec 95 100)
          (JS.mul (rand (Z.of_nat i * 10 + Z.of_nat roomIndex)) (JS.dec 1 10)))).

End Price.

End Spec.

(** Inputs used in the examples below. *)
Definition clock_2026_11_02 : Date := {| getFullYear := 2026; getMonth := 10; getDate := 2 |}.
Definition clock_2026_11_30 : Date := {| getFullYear := 2026; getMonth := 10; getDate := 30 |}.
Definition clock_2026_12_01 : Date := {| getFullYear := 2026; getMonth := 11; getDate := 1 |}.

Definition scraped_month (label : string) (prices : list (string * JS.Number))
  : Scraped.MonthRec :=
  {| Scraped.month_label := Some label;
     Scraped.month_key := None;
     Scraped.rooms :=
       Some (map (fun kv => (fst kv, {| Scraped.price_pp := Some (snd kv) |})) prices) |}.

(** One month, one suite at 450: the scenario of the specification. *)
Definition hotel_suite_450 : Scraped.Hotel :=
  {| Scraped._months := Some [scraped_month "Jun 2026" [("Suite", JS.of_Z 450)]];
     Scraped._roomTypes := Some ["Suite"] |}.


(** A raw price of 454.6. *)
Definition hotel_suite_fraction : Scraped.Hotel :=
  {| Scraped._months := Some [scraped_month "Jun 2026" [("Suite", JS.dec 4546 10)]];
     Scraped._roomTypes := Some ["Suite"] |}.

(** Thirteen scraped months. *)
Definition hotel_13_months : Scraped.Hotel :=
  {| Scraped._months := Some (repeat (scraped_month "Jun 2026" [("Suite", JS.of_Z 450)]) 13);
     Scraped._roomTypes := Some ["Suite"] |}.

(** A month record without its [rooms] field. *)
Definition hotel_month_without_rooms : Scraped.Hotel :=
  {| Scraped._months :=
       Some [{| Scraped.month_label := Some "Jun 2026"; Scraped.month_key := None;
                Scraped.rooms := None |}];
     Scraped._roomTypes := None |}.

(** No [room_types] field, and prices for a room type outside the default
    list only. *)
Definition hotel_penthouse_only : Scraped.Hotel :=
  {| Scraped._months := Some [scraped_month "Jun 2026" [("Penthouse", JS.of_Z 450)]];
     Scraped._roomTypes := None |}.

(** No [room_types] field, and a price for a room type of the default
    list. *)
Definition hotel_default_rooms : Scraped.Hotel :=
  {| Scraped._months :=
       Some [scraped_month "Jun 2026" [("Standard Double", JS.of_Z 450); ("Suite", JS.of_Z 900)]];
     Scraped._roomTypes := None |}.

(** A record without months, and one with an empty room-type list. *)
Definition hotel_no_months : Scraped.Hotel :=
  {| Scraped._months := None; Scraped._roomTypes := None |}.
Definition hotel_no_room_types : Scraped.Hotel :=
  {| Scraped._months := Some [scraped_month "Jun 2026" [("Suite", JS.of_Z 450)]];
     Scraped._roomTypes := Some [] |}.

(** A document with one hotel, and one with none. *)
Definition document_one_hotel : Fetch.Json :=
  Fetch.JObj [("hotels", Fetch.JArr [Fetch.JObj [("name", Fetch.JStr "Sunwing Alcudia Beach")]]);
              ("total_prices", Fetch.JNum (JS.of_Z 1))].
Definition document_no_hotel : Fetch.Json :=
  Fetch.JObj [("hotels", Fetch.JArr []); ("total_prices", Fetch.JNum (JS.of_Z 0))].

(* ================================================================= *)
(** ** Auxiliary definitions used by the statements *)

(** A Number other than NaN is placed by its class, then by exponent and
    mantissa; [<] compares these places. *)
Definition rank (x : JS.Number) : Z * Z * Z :=
  match x with
  | S754_nan => (0, 0, 0)
  | S754_zero _ => (0, 0, 0)
  | S754_infinity s => (if s then -2 else 2, 0, 0)
  | S754_finite s m e => if s then (-1, - e, Z.neg m) else (1, e, Z.pos m)
  end.

Definition rank_lt (a b : Z * Z * Z) : Prop :=
  let '(c1, e1, m1) := a in
  let '(c2, e2, m2) := b in
  c1 < c2 \/ (c1 = c2 /\ (e1 < e2 \/ (e1 = e2 /\ m1 < m2))).

(** The binary64 values among the [spec_float]s, and one half. *)
Definition binary64 (x : JS.Number) : bool := valid_binary 53 1024 x.
Definition half : JS.Number := S754_finite false 4503599627370496 (-53).

(** The calendar month (0 = January) of the [i]-th entry of a grid
    generated at [now]. *)
Definition month_index (now : Date) (i : nat) : nat := ((getMonth now + i) mod 12)%nat.

Definition months_of (h : Scraped.Hotel) : list Scraped.MonthRec :=
  match Scraped._months h with
  | Some ms => ms
  | None => []
  end.

(** The active room-type list, [h._roomTypes || ROOM_TYPES]. *)
Definition room_types_of (h : Scraped.Hotel) : list string :=
  match Scraped._roomTypes h with
  | Some l => l
  | None => ROOM_TYPES
  end.

(** What the loop stores under key [k] for a month with room map [o]. *)
Definition scraped_room (d : Z) (o : Obj Scraped.RoomData) (k : string) (r : Room) : Prop :=
  match raw_price o k with
  | Some pp =>
      r = {| price := JS.Math_round pp; available := true;
             perNight := JS.Math_round (JS.div pp (JS.of_Z d)) |}
  | None => r = {| price := JS.of_Z 0; available := false; perNight := JS.of_Z 0 |}
  end.

(** The raw prices the loop over [rt] meets in a month with room map [o]. *)
Definition raw_prices (o : Obj Scraped.RoomData) (rt : list string) : list JS.Number :=
  flat_map (fun r => match raw_price o r with Some pp => [pp] | None => [] end) rt.

(** Every [price_pp] of the record is a binary64 value. *)
Definition room_binary64 (kv : string * Scraped.RoomData) : bool :=
  match Scraped.price_pp (snd kv) with
  | Some pp => binary64 pp
  | None => true
  end.

Definition month_binary64 (m : Scraped.MonthRec) : bool :=
  match Scraped.rooms m with
  | Some o => forallb room_binary64 o
  | None => true
  end.

Definition prices_binary64 (h : Scraped.Hotel) : bool :=
  forallb month_binary64 (months_of h).


(* ================================================================= *)
(** ** The dashboard around the two generators *)

(** [Math.min] of two Numbers, and [Math.min(...l)], [Math.max(...l)]
    on an array: the fold of the two-argument function from +Infinity,
    respectively -Infinity. *)
Definition Math_min (x y : JS.Number) : JS.Number :=
  match x, y with
  | S754_nan, _ | _, S754_nan => S754_nan
  | S754_zero sx, S754_zero sy => S754_zero (sx || sy)
  | _, _ => if JS.lt y x then y else x
  end.

Definition Math_min_spread (l : list JS.Number) : JS.Number :=
  fold_left Math_min l JS.Infinity.

Definition Math_max_spread (l : list JS.Number) : JS.Number :=
  fold_left JS.Math_max l (S754_infinity true).

(** The summary figures computed from a non-null [data]. *)
Definition oMin (data : list Month) : JS.Number :=
  Math_min_spread (filter (fun v => JS.gt v (JS.of_Z 0)) (map cheapest data)).

Definition oMax (data : list Month) : JS.Number :=
  Math_max_spread (map mostExpensive data).

Definition oAvg (data : list Month) : JS.Number :=
  JS.Math_round
    (JS.div (fold_left (fun a m => JS.add a (avgPrice m)) data (JS.of_Z 0))
       (JS.of_Z (Z.of_nat (List.length data)))).

(** [cM]: the reduction starts from [{cheapest: Infinity}], here [None]. *)
Definition best_cheapest (b : option Month) : JS.Number :=
  match b with
  | Some m => cheapest m
  | None => JS.Infinity
  end.

Definition cM (data : list Month) : option Month :=
  fold_left (fun b m => if JS.lt (cheapest m) (best_cheapest b) then Some m else b)
    (filter valid_month data) None.

(** [PriceChart]: the numbers behind the drawing.  [m.rooms[selectedRoom]]
    is read as an own property, which is what it is for every selected
    room other than [__proto__]. *)
Module PriceChart.

Definition prices (data : list Month) (selectedRoom : string) : list JS.Number :=
  map (fun m =>
         match obj_get selectedRoom (rooms m) with
         | Some r => if JS.truthy (price r) then price r else JS.of_Z 0
         | None => JS.of_Z 0
         end) data.

Definition max (ps : list JS.Number) : JS.Number := Math_max_spread ps.

Definition min (ps : list JS.Number) : JS.Number :=
  Math_min_spread (filter (fun p => JS.gt p (JS.of_Z 0)) ps).

Definition range (ps : list JS.Number) : JS.Number :=
  let r := JS.sub (max ps) (min ps) in
  if JS.truthy r then r else JS.of_Z 1.

Definition padL : JS.Number := JS.of_Z 40.
Definition padR : JS.Number := JS.of_Z 12.
Definition padT : JS.Number := JS.of_Z 20.
Definition padB : JS.Number := JS.of_Z 32.
Definition W : JS.Number := JS.of_Z 500.
Definition H : JS.Number := JS.of_Z 200.
Definition chartW : JS.Number := JS.sub (JS.sub W padL) padR.
Definition chartH : JS.Number := JS.sub (JS.sub H padT) padB.

Definition gx (ps : list JS.Number) (i : Z) : JS.Number :=
  JS.add padL
    (JS.mul (JS.div (JS.of_Z i) (JS.sub (JS.of_Z (Z.of_nat (List.length ps))) (JS.of_Z 1)))
       chartW).

Definition gy (ps : list JS.Number) (p : JS.Number) : JS.Number :=
  JS.sub (JS.add padT chartH)
    (JS.mul (JS.div (JS.sub p (min ps)) (range ps)) chartH).

End PriceChart.

(** [Stars]: the text of the rating, as UTF-16 code units (9733 is the
    filled star, 9734 the empty one).  [s.repeat(n)] throws a RangeError
    for a negative [n]; [count] is an integer or undefined. *)
Inductive Rendered (A : Type) :=
  | Shown (a : A)
  | RangeError.

Arguments Shown {A} a.
Arguments RangeError {A}.

Definition String_repeat (unit : N) (count : Z) : Rendered (list N) :=
  if count <? 0 then RangeError else Shown (repeat unit (Z.to_nat count)).

Definition Stars (count : option Z) : Rendered (list N) :=
  let c := match count with Some c => c | None => 0 end in
  match String_repeat 9733 c with
  | Shown filled =>
      match String_repeat 9734 (5 - c) with
      | Shown empty => Shown (filled ++ empty)%list
      | RangeError => RangeError
      end
  | RangeError => RangeError
  end.

(** [load]: the callback it schedules, on the state it reads and sets.
    [h] is a suggestion: a name and, for a live hotel, its scraped
    record. *)
Record Suggestion := {
  name : string;
  record : Scraped.Hotel
}.

Record View := {
  view_mode : Fetch.Mode;
  selRoom : string;
  data : option (list Month);
  rTypes : list string
}.

Definition includes (x : string) (a : list string) : bool :=
  existsb (String.eqb x) a.

Section Load.

Variable Math_sin : JS.Number -> JS.Number.
Variable parseInt : string -> JS.Number.
Variable now : Date.

Definition load_demo (st : View) (h : Suggestion) (ap : string) (d : Z) (b : string) : View :=
  {| view_mode := view_mode st;
     selRoom := selRoom st;
     data := Some (generateDemoData Math_sin now (name h) ap d b);
     rTypes := ROOM_TYPES |}.

Definition load (st : View) (h : Suggestion) (ap : string) (d : Z) (b : string)
  : Completion View :=
  match view_mode st, Scraped._months (record h) with
  | Fetch.live, Some _ =>
      result <- buildLiveMonths parseInt (record h) ap d ;;
      match result with
      | Some g =>
          Normal
            {| view_mode := view_mode st;
               selRoom :=
                 match roomTypes g with
                 | first :: _ =>
                     if negb (includes (selRoom st) (roomTypes g)) then first
                     else selRoom st
                 | [] => selRoom st
                 end;
               data := Some (months g);
               rTypes := roomTypes g |}
      | None => Normal (load_demo st h ap d b)
      end
  | _, _ => Normal (load_demo st h ap d b)
  end.

End Load.

(** A month with the [perNight] of its rooms left out: what of an entry
    does not depend on the length of the stay. *)
Definition no_perNight (r : Room) : Room :=
  {| price := price r; available := available r; perNight := JS.of_Z 0 |}.

Definition obj_map {A B} (f : A -> B) (o : Obj A) : Obj B :=
  map (fun kv => (fst kv, f (snd kv))) o.

Definition without_perNight (m : Month) : Month :=
  {| month := month m; year := year m;
     rooms := obj_map no_perNight (rooms m);
     cheapest := cheapest m; mostExpensive := mostExpensive m;
     avgPrice := avgPrice m; availability := availability m |}.

(** Two runs that end the same way, with results related by [R]. *)
Definition same_outcome {A} (R : A -> A -> Prop) (c c' : Completion A) : Prop :=
  match c, c' with
  | Normal a, Normal a' => R a a'
  | Throw e, Throw e' => e = e'
  | _, _ => False
  end.

Definition same_scan (s s' : Scan) : Prop :=
  obj_map no_perNight (scan_rooms s) = obj_map no_perNight (scan_rooms s') /\
  ch s = ch s' /\ mx s = mx s'.

Definition same_months (l l' : list Month) : Prop :=
  map without_perNight l = map without_perNight l'.

Definition same_grid (g g' : option LiveGrid) : Prop :=
  match g, g' with
  | Some a, Some b => roomTypes a = roomTypes b /\ same_months (months a) (months b)
  | None, None => True
  | _, _ => False
  end.

(** A Number that is neither NaN nor an infinity, as [Number.isFinite]
    tests; a coordinate of the drawing has to be one. *)
Definition isFinite (x : JS.Number) : bool :=
  match x with
  | S754_zero _ | S754_finite _ _ _ => true
  | _ => false
  end.

(* ================================================================= *)
(** ** Order of Numbers *)

Lemma lt_rank x y :
  x <> JS.NaN -> y <> JS.NaN ->
  (JS.lt x y = true <-> rank_lt (rank x) (rank y)).
Proof.
  unfold JS.NaN, JS.lt. intros Hx Hy.
  destruct x as [sx|sx| |sx mx ex], y as [sy|sy| |sy my ey]; try congruence;
    unfold SFltb, SFcompare, rank, rank_lt;
    try (destruct sx); try (destruct sy); try (split; intro; (lia || discriminate));
    change (Pos.compare_cont Eq ?a ?b) with (Pos.compare a b);
    destruct (Z.compare_spec ex ey); try (split; intro; (lia || discriminate));
    destruct (Pos.compare_spec mx my); simpl; split; intro; (lia || discriminate).
Qed.

Lemma lt_nan_l y : JS.lt JS.NaN y = false.
Proof. reflexivity. Qed.

Lemma lt_nan_r x : JS.lt x JS.NaN = false.
Proof. destruct x; reflexivity. Qed.

Lemma lt_irrefl x : JS.lt x x = false.
Proof.
  destruct (JS.lt x x) eqn:E; [|reflexivity].
  destruct x as [s|s| |s m e]; try discriminate E;
    apply lt_rank in E; try discriminate; unfold rank, rank_lt in E;
    destruct s; lia.
Qed.

Lemma lt_asym x y : JS.lt x y = true -> JS.lt y x = false.
Proof.
  intro H. destruct (JS.lt y x) eqn:E; [|reflexivity].
  assert (x <> JS.NaN) by (intro; subst; discriminate H).
  assert (y <> JS.NaN) by (intro; subst; discriminate E).
  apply lt_rank in H; auto. apply lt_rank in E; auto.
  unfold rank_lt in *.
  destruct (rank x) as [[? ?] ?], (rank y) as [[? ?] ?]. lia.
Qed.

(** If [f <= a] and [a <= q] with [a] a number, then [f <= q]; "[p <= q]"
    is read "not [q < p]". *)
Lemma not_lt_trans f a q :
  a <> JS.NaN -> JS.lt a f = false -> JS.lt q a = false -> JS.lt q f = false.
Proof.
  intros Ha H1 H2. destruct (JS.lt q f) eqn:E; [|reflexivity].
  assert (Hq : q <> JS.NaN) by (intro; subst; discriminate E).
  assert (Hf : f <> JS.NaN) by (intro; subst; rewrite lt_nan_r in E; discriminate E).
  apply lt_rank in E; auto.
  assert (N1 : ~ rank_lt (rank a) (rank f))
    by (intro C; apply lt_rank in C; auto; congruence).
  assert (N2 : ~ rank_lt (rank q) (rank a))
    by (intro C; apply lt_rank in C; auto; congruence).
  unfold rank_lt in *.
  destruct (rank a) as [[? ?] ?], (rank f) as [[? ?] ?], (rank q) as [[? ?] ?]. lia.
Qed.

Lemma min_step_number a p : a <> JS.NaN -> min_step a p <> JS.NaN.
Proof.
  unfold min_step. intros Ha. destruct (JS.lt p a) eqn:E; auto.
  intro; subst; discriminate E.
Qed.

Lemma max_step_number a p : a <> JS.NaN -> max_step a p <> JS.NaN.
Proof.
  unfold max_step, JS.gt. intros Ha. destruct (JS.lt a p) eqn:E; auto.
  intro; subst; rewrite lt_nan_r in E; discriminate E.
Qed.

(** The running minimum is below its start and below every element. *)
Lemma fold_min_bounds l : forall a,
  a <> JS.NaN ->
  JS.lt a (fold_left min_step l a) = false /\
  (forall p, In p l -> JS.lt p (fold_left min_step l a) = false).
Proof.
  induction l as [|q l IH]; intros a Ha; simpl.
  - split; [apply lt_irrefl | tauto].
  - destruct (IH (min_step a q) (min_step_number a q Ha)) as [B1 B2].
    assert (Hq : JS.lt q (min_step a q) = false).
    { unfold min_step. destruct (JS.lt q a) eqn:E; [apply lt_irrefl | exact E]. }
    assert (Hm : JS.lt a (min_step a q) = false).
    { unfold min_step. destruct (JS.lt q a) eqn:E; [apply lt_asym, E | apply lt_irrefl]. }
    split.
    + eapply not_lt_trans; [apply (min_step_number a q Ha) | exact B1 | exact Hm].
    + intros p [<-|Hp]; [|auto].
      eapply not_lt_trans; [apply (min_step_number a q Ha) | exact B1 | exact Hq].
Qed.

(** The running maximum is above its start and above every element. *)
Lemma fold_max_bounds l : forall a,
  a <> JS.NaN ->
  JS.lt (fold_left max_step l a) a = false /\
  (forall p, In p l -> JS.lt (fold_left max_step l a) p = false).
Proof.
  induction l as [|q l IH]; intros a Ha; simpl.
  - split; [apply lt_irrefl | tauto].
  - destruct (IH (max_step a q) (max_step_number a q Ha)) as [B1 B2].
    assert (Hq : JS.lt (max_step a q) q = false).
    { unfold max_step, JS.gt. destruct (JS.lt a q) eqn:E; [apply lt_irrefl | exact E]. }
    assert (Hm : JS.lt (max_step a q) a = false).
    { unfold max_step, JS.gt. destruct (JS.lt a q) eqn:E; [apply lt_asym, E | apply lt_irrefl]. }
    split.
    + eapply not_lt_trans; [apply (max_step_number a q Ha) | exact Hm | exact B1].
    + intros p [<-|Hp]; [|auto].
      eapply not_lt_trans; [apply (max_step_number a q Ha) | exact Hq | exact B1].
Qed.

Lemma fold_min_attained l : forall a,
  fold_left min_step l a = a \/ In (fold_left min_step l a) l.
Proof.
  induction l as [|q l IH]; intros a; simpl; [now left|].
  destruct (IH (min_step a q)) as [E|E]; [|now right; right].
  rewrite E. unfold min_step. destruct (JS.lt q a); [right; now left | now left].
Qed.

Lemma fold_max_attained l : forall a,
  fold_left max_step l a = a \/ In (fold_left max_step l a) l.
Proof.
  induction l as [|q l IH]; intros a; simpl; [now left|].
  destruct (IH (max_step a q)) as [E|E]; [|now right; right].
  rewrite E. unfold max_step. destruct (JS.gt q a); [right; now left | now left].
Qed.

(* ================================================================= *)
(** ** Shape of the synthetic grid *)

Lemma fold_push {A B} (f : A -> B) l : forall acc,
  fold_left (fun ms i => (ms ++ [f i])%list) l acc = (acc ++ map f l)%list.
Proof.
  induction l as [|x l IH]; intros acc; simpl.
  - now rewrite app_nil_r.
  - rewrite IH, <- app_assoc. reflexivity.
Qed.

Section DemoFacts.

Variable Math_sin : JS.Number -> JS.Number.
Variable now : Date.
Variables hotel airport : string.
Variable duration : Z.
Variable board : string.

Local Notation "'GRID'" := (generateDemoData Math_sin now hotel airport duration board).
Local Notation "'ENTRY'" := (demo_month Math_sin now hotel airport duration board).
Local Notation "'ROOM'" := (demo_room Math_sin hotel airport duration board).


Lemma grid_map : GRID = map ENTRY (seq 0 12).
Proof. unfold generateDemoData. now rewrite fold_push. Qed.

Lemma grid_length : List.length GRID = 12%nat.
Proof. rewrite grid_map, length_map, length_seq. reflexivity. Qed.

Lemma grid_nth i : (i < 12)%nat -> nth_error GRID i = Some (ENTRY i).
Proof.
  intro H. rewrite grid_map, nth_error_map, nth_error_seq.
  destruct (Nat.ltb_spec i 12); [reflexivity | lia].
Qed.

Lemma grid_In m : In m GRID -> exists i, (i < 12)%nat /\ m = ENTRY i.
Proof.
  rewrite grid_map, in_map_iff. intros (i & E & Hi).
  apply in_seq in Hi. exists i. split; [lia | now symmetry].
Qed.

(** The five properties of [rooms], in the order of [ROOM_TYPES]. *)
Lemma entry_rooms i :
  rooms (ENTRY i) =
  map (fun ix => (snd ix, ROOM i (month_index now i) (fst ix) (snd ix)))
      (combine (seq 0 5) ROOM_TYPES).
Proof. reflexivity. Qed.

Lemma entry_values i :
  Object_values (rooms (ENTRY i)) =
  map (fun ix => ROOM i (month_index now i) (fst ix) (snd ix)) (combine (seq 0 5) ROOM_TYPES).
Proof. reflexivity. Qed.

Lemma entry_room i ri rt :
  nth_error ROOM_TYPES ri = Some rt ->
  obj_get rt (rooms (ENTRY i)) = Some (ROOM i (month_index now i) ri rt).
Proof.
  intro H. rewrite entry_rooms.
  do 5 (destruct ri as [|ri]; [injection H as <-; reflexivity|]).
  destruct ri; discriminate H.
Qed.

Lemma entry_rooms_In i k r :
  In (k, r) (rooms (ENTRY i)) ->
  exists ri, nth_error ROOM_TYPES ri = Some k /\ r = ROOM i (month_index now i) ri k.
Proof.
  rewrite entry_rooms. simpl.
  intros [E|[E|[E|[E|[E|[]]]]]]; injection E as <- <-;
    [exists 0%nat | exists 1%nat | exists 2%nat | exists 3%nat | exists 4%nat];
    split; reflexivity.
Qed.

(** The loop over the room types keeps a running minimum and a running
    maximum of every price it computes. *)
Lemma demo_scan i mi : forall l s,
  fold_left
    (fun s ix => demo_step Math_sin hotel airport duration board i mi s (fst ix) (snd ix))
    l s =
  {| scan_rooms :=
       fold_left (fun o ix => obj_set (snd ix) (ROOM i mi (fst ix) (snd ix)) o) l (scan_rooms s);
     ch := fold_left min_step (map (fun ix => price (ROOM i mi (fst ix) (snd ix))) l) (ch s);
     mx := fold_left max_step (map (fun ix => price (ROOM i mi (fst ix) (snd ix))) l) (mx s) |}.
Proof.
  induction l as [|ix l IH]; intros s.
  - destruct s; reflexivity.
  - cbn [fold_left map]. rewrite IH. reflexivity.
Qed.

Lemma entry_cheapest i :
  cheapest (ENTRY i) =
  fold_left min_step (map price (Object_values (rooms (ENTRY i)))) JS.Infinity.
Proof.
  rewrite entry_values, map_map.
  unfold demo_month. cbn [cheapest]. unfold forEach_i. rewrite demo_scan.
  cbn [ch scan_start]. reflexivity.
Qed.

Lemma entry_mostExpensive i :
  mostExpensive (ENTRY i) =
  fold_left max_step (map price (Object_values (rooms (ENTRY i)))) (JS.of_Z 0).
Proof.
  rewrite entry_values, map_map.
  unfold demo_month. cbn [mostExpensive]. unfold forEach_i. rewrite demo_scan.
  cbn [mx scan_start]. reflexivity.
Qed.

Lemma entry_avgPrice i :
  avgPrice (ENTRY i) = Spec.demo_avgPrice (rooms (ENTRY i)).
Proof.
  unfold Spec.demo_avgPrice, sum_prices, demo_month. cbn [avgPrice rooms].
  change (Z.of_nat (List.length ROOM_TYPES)) with 5.
  reflexivity.
Qed.

Lemma entry_label i :
  month (ENTRY i) = nth (month_index now i) MONTHS EmptyString /\
  year (ENTRY i) =
    JS.of_Z (getFullYear now + (if (12 <=? getMonth now + i)%nat then 1 else 0)).
Proof. split; reflexivity. Qed.

(** The code's seed and draws are the specification's. *)
Lemma seed_spec :
  seed_of hotel airport duration board = Spec.seed hotel airport duration board.
Proof.
  unfold seed_of, Spec.seed.
  generalize (JS.of_Z 0).
  induction (list_ascii_of_string (hotel ++ airport ++ JS.string_of_Z duration ++ board))
    as [|c cs IH]; intros a; simpl; [reflexivity | apply IH].
Qed.

Lemma rng_spec i :
  rng Math_sin (seed_of hotel airport duration board) i =
  Spec.rand Math_sin hotel airport duration board i.
Proof. unfold rng, Spec.rand, Spec.frac. rewrite seed_spec. reflexivity. Qed.

Lemma sm_spec : sm = Spec.seasonalMultiplier.
Proof. vm_compute. reflexivity. Qed.

Lemma dm_spec : dm_of duration = Spec.durationMultiplier duration.
Proof.
  unfold dm_of, Spec.durationMultiplier.
  repeat (destruct (_ <=? _); [reflexivity|]). reflexivity.
Qed.

Lemma bm_spec : In board BOARD_TYPES -> bm_of board = Spec.boardMultiplier board.
Proof.
  simpl. intros [<-|[<-|[<-|[<-|[<-|[]]]]]]; vm_compute; reflexivity.
Qed.

Lemma rm_spec ri rt :
  nth_error ROOM_TYPES ri = Some rt -> to_number (obj_get rt rm) = Spec.roomMultiplier rt.
Proof.
  intro H.
  do 5 (destruct ri as [|ri]; [injection H as <-; vm_compute; reflexivity|]).
  destruct ri; discriminate H.
Qed.

Lemma room_price_spec i ri rt :
  In board BOARD_TYPES ->
  nth_error ROOM_TYPES ri = Some rt ->
  price (ROOM i (month_index now i) ri rt) =
  Spec.room_price Math_sin hotel airport duration board (month_index now i) i ri rt.
Proof.
  intros Hb Hr. unfold demo_room, Spec.room_price, Spec.base. cbn [price].
  rewrite !rng_spec, sm_spec, dm_spec, (bm_spec Hb), (rm_spec ri rt Hr).
  unfold jitter_index. rewrite Nat2Z.inj_add, Nat2Z.inj_mul. reflexivity.
Qed.

End DemoFacts.

(* ================================================================= *)
(** ** Objects *)

Lemma obj_put_In {A} k (v : A) o k' v' :
  In (k', v') (obj_put k v o) -> (k' = k /\ v' = v) \/ In (k', v') o.
Proof.
  induction o as [|[k0 v0] o IH]; simpl.
  - intros [E|[]]. injection E as <- <-. now left.
  - destruct (String.eqb_spec k k0) as [->|_]; simpl.
    + intros [E|H]; [injection E as <- <-; now left | right; now right].
    + intros [E|H]; [right; now left|].
      destruct (IH H) as [?|?]; [now left | right; now right].
Qed.

Lemma obj_set_In {A} k (v : A) o k' v' :
  In (k', v') (obj_set k v o) -> (k' = k /\ v' = v) \/ In (k', v') o.
Proof.
  unfold obj_set. destruct (String.eqb k "__proto__"); [now right | apply obj_put_In].
Qed.

Lemma insert_by_index_In {A} n (v : A) l n' v' :
  In (n', v') (insert_by_index n v l) -> (n', v') = (n, v) \/ In (n', v') l.
Proof.
  induction l as [|[n0 v0] l IH]; simpl.
  - intros [E|[]]. now left.
  - destruct (n <? n0)%N; simpl.
    + intros [E|H]; [now left | now right].
    + intros [E|H]; [right; now left|].
      destruct (IH H) as [?|?]; [now left | right; now right].
Qed.

Lemma indexed_props_In {A} (o : Obj A) n v :
  In (n, v) (indexed_props o) -> exists k, In (k, v) o.
Proof.
  induction o as [|[k0 v0] o IH]; simpl; [tauto|].
  destruct (array_index k0).
  - intros H. apply insert_by_index_In in H. destruct H as [E|H].
    + injection E as _ <-. exists k0. now left.
    + destruct (IH H) as [k Hk]. exists k. now right.
  - intros H. destruct (IH H) as [k Hk]. exists k. now right.
Qed.

Lemma named_props_In {A} (o : Obj A) v :
  In v (named_props o) -> exists k, In (k, v) o.
Proof.
  induction o as [|[k0 v0] o IH]; simpl; [tauto|].
  destruct (array_index k0).
  - intros H. destruct (IH H) as [k Hk]. exists k. now right.
  - intros [<-|H]; [exists k0; now left|].
    destruct (IH H) as [k Hk]. exists k. now right.
Qed.

(** Every enumerated value is the value of an own property. *)
Lemma Object_values_In {A} (o : Obj A) v :
  In v (Object_values o) -> exists k, In (k, v) o.
Proof.
  unfold Object_values. rewrite in_app_iff, in_map_iff.
  intros [([n v0] & E & H)|H].
  - simpl in E. subst v0. eapply indexed_props_In, H.
  - apply named_props_In, H.
Qed.

(* ================================================================= *)
(** ** Loops that may throw *)

Lemma mapM_length {A B} (f : A -> Completion B) l : forall l',
  mapM f l = Normal l' -> List.length l' = List.length l.
Proof.
  induction l as [|a l IH]; simpl; intros l' H.
  - injection H as <-. reflexivity.
  - destruct (f a); [|discriminate H]. simpl in H.
    destruct (mapM f l) as [bs|]; [|discriminate H]. simpl in H.
    injection H as <-. simpl. now rewrite (IH bs).
Qed.

Lemma mapM_In {A B} (f : A -> Completion B) l : forall l' b,
  mapM f l = Normal l' -> In b l' -> exists a, In a l /\ f a = Normal b.
Proof.
  induction l as [|a l IH]; simpl; intros l' b H Hb.
  - injection H as <-. destruct Hb.
  - destruct (f a) as [b0|] eqn:Ea; [|discriminate H]. simpl in H.
    destruct (mapM f l) as [bs|]; [|discriminate H]. simpl in H.
    injection H as <-. destruct Hb as [<-|Hb].
    + exists a. split; [now left | exact Ea].
    + destruct (IH bs b eq_refl Hb) as (a' & Ha & E). exists a'. split; [now right | exact E].
Qed.



(* ================================================================= *)
(** ** Shape of the normalised grid *)


Section LiveFacts.

Variable parseInt : string -> JS.Number.
Variable d : Z.

Lemma live_scan_rooms m o rt : forall s s',
  Scraped.rooms m = Some o ->
  foldM (live_step d m) rt s = Normal s' ->
  (forall k r, In (k, r) (scan_rooms s) -> scraped_room d o k r) ->
  forall k r, In (k, r) (scan_rooms s') -> scraped_room d o k r.
Proof.
  intros s s' Ho. revert s s'.
  induction rt as [|x rt IH]; simpl; intros s s' H Inv.
  - injection H as <-. exact Inv.
  - unfold live_step at 1 in H. rewrite Ho in H.
    destruct (raw_price o x) as [pp|] eqn:Ep; simpl in H;
      (eapply IH; [exact H|]); cbn [scan_rooms]; intros k r Hin;
      apply obj_set_In in Hin; destruct Hin as [[-> ->]|Hin]; auto;
      unfold scraped_room; rewrite Ep; reflexivity.
Qed.


Lemma live_scan_throws m rt s :
  Scraped.rooms m = None -> rt <> [] -> foldM (live_step d m) rt s = Throw TypeError.
Proof.
  intros Ho Hrt. destruct rt as [|x rt]; [congruence|].
  simpl. unfold live_step. rewrite Ho. reflexivity.
Qed.

Lemma live_month_rooms rt mrec m :
  live_month parseInt rt d mrec = Normal m ->
  forall k r, In (k, r) (rooms m) ->
    exists o, Scraped.rooms mrec = Some o /\ scraped_room d o k r.
Proof.
  unfold live_month. intros H k r Hin.
  destruct (foldM (live_step d mrec) rt scan_start) as [s|] eqn:Es; [|discriminate H].
  simpl in H. injection H as <-. cbn [rooms] in Hin.
  destruct (Scraped.rooms mrec) as [o|] eqn:Eo.
  - exists o. split; [reflexivity|].
    eapply live_scan_rooms; eauto. simpl. tauto.
  - destruct rt as [|x rt].
    + simpl in Es. injection Es as <-. destruct Hin.
    + rewrite live_scan_throws in Es; congruence.
Qed.

Lemma live_month_avgPrice rt mrec m :
  live_month parseInt rt d mrec = Normal m ->
  avgPrice m =
  JS.Math_round
    (JS.div (sum_prices (filter priced (Object_values (rooms m))))
       (JS.Math_max
          (JS.of_Z (Z.of_nat (List.length (filter priced (Object_values (rooms m))))))
          (JS.of_Z 1))).
Proof.
  unfold live_month. intros H.
  destruct (foldM (live_step d mrec) rt scan_start) as [s|]; [|discriminate H].
  simpl in H. injection H as <-. reflexivity.
Qed.




(** The normaliser, past its two guards. *)
Lemma build_unfold h ap :
  months_of h <> [] -> room_types_of h <> [] ->
  buildLiveMonths parseInt h ap d =
  match mapM (live_month parseInt (room_types_of h) d) (months_of h) with
  | Normal ms' =>
      match filter valid_month ms' with
      | [] => Normal None
      | v :: vs => Normal (Some {| months := v :: vs; roomTypes := room_types_of h |})
      end
  | Throw e => Throw e
  end.
Proof.
  unfold buildLiveMonths, months_of, room_types_of.
  destruct (Scraped._months h) as [[|m ms]|]; try congruence.
  intros _ Hrt.
  destruct (match Scraped._roomTypes h with Some l => l | None => ROOM_TYPES end)
    as [|r rt]; [congruence|].
  destruct (mapM _ _) as [ms'|e]; [|reflexivity]. simpl.
  destruct (filter valid_month ms'); reflexivity.
Qed.

Lemma build_null_months h ap : months_of h = [] -> buildLiveMonths parseInt h ap d = Normal None.
Proof.
  unfold buildLiveMonths, months_of.
  destruct (Scraped._months h) as [[|m ms]|]; congruence.
Qed.

Lemma build_null_room_types h ap :
  room_types_of h = [] -> buildLiveMonths parseInt h ap d = Normal None.
Proof.
  unfold buildLiveMonths, room_types_of. intros ->.
  destruct (Scraped._months h) as [[|m ms]|]; reflexivity.
Qed.

Lemma build_Some h ap g :
  buildLiveMonths parseInt h ap d = Normal (Some g) ->
  exists ms',
    mapM (live_month parseInt (room_types_of h) d) (months_of h) = Normal ms' /\
    months g = filter valid_month ms' /\ months g <> [] /\
    roomTypes g = room_types_of h.
Proof.
  intros H.
  destruct (months_of h) as [|m0 ms0] eqn:Em.
  { rewrite build_null_months in H by exact Em. discriminate H. }
  destruct (room_types_of h) as [|r0 rt0] eqn:Er.
  { rewrite build_null_room_types in H by exact Er. discriminate H. }
  rewrite build_unfold in H by congruence. rewrite Em, Er in H.
  destruct (mapM _ _) as [ms'|e]; [|discriminate H].
  exists ms'. destruct (filter valid_month ms') as [|v vs] eqn:Ef; [discriminate H|].
  injection H as <-. simpl. repeat split; congruence.
Qed.

End LiveFacts.

(* ================================================================= *)
(** ** Rounding of positive Numbers *)

Lemma digits2_bounds p :
  2 ^ (Z.pos (digits2_pos p) - 1) <= Z.pos p < 2 ^ Z.pos (digits2_pos p).
Proof.
  induction p as [p IH|p IH|]; cbn [digits2_pos].
  - rewrite Pos2Z.inj_succ.
    replace (Z.succ (Z.pos (digits2_pos p)) - 1) with (Z.succ (Z.pos (digits2_pos p) - 1)) by lia.
    rewrite !Z.pow_succ_r by lia. lia.
  - rewrite Pos2Z.inj_succ.
    replace (Z.succ (Z.pos (digits2_pos p)) - 1) with (Z.succ (Z.pos (digits2_pos p) - 1)) by lia.
    rewrite !Z.pow_succ_r by lia. lia.
  - simpl. lia.
Qed.

Lemma digits2_iter_xO p d :
  digits2_pos (Pos.iter xO p d) = (digits2_pos p + d)%positive.
Proof.
  revert p. induction d as [|d IH] using Pos.peano_ind; intros p.
  - simpl. lia.
  - rewrite Pos.iter_succ. cbn [digits2_pos]. rewrite IH. lia.
Qed.

Lemma digits2_le p n : 0 <= n -> Z.pos p < 2 ^ n -> Z.pos (digits2_pos p) <= n.
Proof.
  intros Hn H. destruct (digits2_bounds p) as [L _].
  destruct (Z_le_gt_dec (Z.pos (digits2_pos p)) n) as [|G]; [assumption|].
  assert (2 ^ n <= 2 ^ (Z.pos (digits2_pos p) - 1)) by (apply Z.pow_le_mono_r; lia).
  lia.
Qed.

(** An integer below 2^53 is a Number exactly, and is positive. *)
Lemma normalize_small p :
  Z.pos p < 2 ^ 53 ->
  exists m e, binary_normalize 53 1024 (Z.pos p) 0 false = S754_finite false m e.
Proof.
  intros H. pose proof (digits2_le p 53 ltac:(lia) H) as Hd.
  unfold binary_normalize, binary_round.
  assert (F : fexp 53 1024 (Z.pos (digits2_pos p) + 0) = Z.pos (digits2_pos p) - 53).
  { unfold fexp, emin. lia. }
  rewrite F. unfold shl_align.
  destruct (Z.pos (digits2_pos p) - 53 - 0) as [|q|q] eqn:Eq; try lia.
  - unfold binary_round_aux, shr_fexp.
    assert (F2 : fexp 53 1024 (Zdigits2 (Z.pos p) + 0) - 0 = 0).
    { unfold fexp, emin, Zdigits2. lia. }
    rewrite F2. cbn -[fexp]. unfold fexp, emin.
    replace (Z.max _ _) with 0 by (simpl Zdigits2; lia). cbn. eauto.
  - set (mz := Pos.iter xO p q). set (ez := Z.pos (digits2_pos p) - 53).
    assert (Dz : Z.pos (digits2_pos mz) = 53).
    { unfold mz. rewrite digits2_iter_xO. lia. }
    assert (Be : -52 <= ez <= 0) by (unfold ez; lia).
    clearbody mz ez. cbv beta iota zeta.
    unfold binary_round_aux, shr_fexp.
    assert (F2 : fexp 53 1024 (Z.pos (digits2_pos mz) + ez) - ez = 0).
    { unfold fexp, emin. rewrite Dz. lia. }
    change (Zdigits2 (Z.pos mz)) with (Z.pos (digits2_pos mz)).
    rewrite F2.
    cbn [shr shr_record_of_loc round_nearest_even shr_m loc_of_shr_record Zdigits2].
    rewrite F2.
    cbn [shr shr_record_of_loc round_nearest_even shr_m loc_of_shr_record Zdigits2].
    change (1024 - 53) with 971.
    destruct (ez <=? 971) eqn:El; [eauto|]. apply Z.leb_gt in El. lia.
Qed.

Lemma half_dec : half = JS.dec 1 2.
Proof. vm_compute. reflexivity. Qed.

Lemma canonical_digits m e :
  bounded 53 1024 m e = true ->
  Z.pos m < 2 ^ 53 /\ (-1074 < e -> 2 ^ 52 <= Z.pos m).
Proof.
  unfold bounded, canonical_mantissa, fexp, emin. intros H.
  apply andb_prop in H. destruct H as [H _]. apply Z.eqb_eq in H.
  destruct (digits2_bounds m) as [L U].
  assert (D : Z.pos (digits2_pos m) <= 53) by lia.
  split.
  - assert (2 ^ Z.pos (digits2_pos m) <= 2 ^ 53) by (apply Z.pow_le_mono_r; lia). lia.
  - intros He. assert (E : Z.pos (digits2_pos m) = 53) by lia.
    rewrite E in L. exact L.
Qed.

Lemma lt_half_finite m e :
  JS.lt (S754_finite false m e) half = false <->
  (-53 < e \/ (e = -53 /\ 2 ^ 52 <= Z.pos m)).
Proof.
  unfold half, JS.lt, SFltb, SFcompare.
  change (2 ^ 52) with 4503599627370496.
  destruct (Z.compare_spec e (-53)) as [He|He|He].
  - destruct (Pos.compare_cont Eq m 4503599627370496) eqn:C.
    + assert (C' : (m ?= 4503599627370496)%positive = Eq) by exact C.
      apply Pos.compare_eq_iff in C'. apply (f_equal Z.pos) in C'.
      split; [intros _; lia | reflexivity].
    + assert (C' : (m ?= 4503599627370496)%positive = Lt) by exact C.
      apply Pos.compare_lt_iff, Pos2Z.pos_lt_pos in C'.
      split; [intros T; discriminate T | lia].
    + assert (C' : (m ?= 4503599627370496)%positive = Gt) by exact C.
      apply Pos.compare_gt_iff, Pos2Z.pos_lt_pos in C'.
      split; [intros _; lia | reflexivity].
  - split; [intros T; discriminate T | lia].
  - split; [intros _; lia | reflexivity].
Qed.

Lemma round_finite m e :
  e < 0 ->
  JS.Math_round (S754_finite false m e) =
  binary_normalize 53 1024 ((2 * Z.pos m + 2 ^ (- e)) / (2 * 2 ^ (- e))) 0 false.
Proof.
  intros He. unfold JS.Math_round. destruct (Z.leb_spec 0 e); [lia | reflexivity].
Qed.

(** Among the positive binary64 Numbers, those that round to a positive
    integer are those from one half upwards. *)
Lemma round_positive x :
  binary64 x = true -> JS.gt x (JS.of_Z 0) = true ->
  (JS.gt (JS.Math_round x) (JS.of_Z 0) = true <-> JS.lt x half = false).
Proof.
  intros V G.
  destruct x as [s|s| |s m e]; try discriminate G.
  - destruct s; [discriminate G|]. split; reflexivity.
  - destruct s; [discriminate G|].
    destruct (canonical_digits m e V) as [U N].
    rewrite lt_half_finite.
    destruct (Z.leb_spec 0 e) as [He|He].
    + unfold JS.Math_round. destruct (Z.leb_spec 0 e); [|lia].
      split; [lia | reflexivity].
    + rewrite round_finite by exact He.
      assert (Pk : 0 < 2 ^ (- e)) by (apply Z.pow_pos_nonneg; lia).
      set (k := 2 ^ (- e)) in *.
      split.
      * intros R.
        assert (Hn : 2 * k <= 2 * Z.pos m + k).
        { destruct (Z_lt_le_dec (2 * Z.pos m + k) (2 * k)) as [C|C]; [|exact C].
          rewrite Z.div_small in R by lia. discriminate R. }
        assert (Hk : - e < 54).
        { destruct (Z_lt_le_dec (- e) 54) as [C|C]; [exact C|].
          assert (2 ^ 54 <= k) by (apply Z.pow_le_mono_r; lia).
          change (2 ^ 53) with 9007199254740992 in U.
          change (2 ^ 54) with 18014398509481984 in *. lia. }
        destruct (Z.eq_dec e (-53)) as [->|]; [|lia].
        right. split; [reflexivity|].
        change (2 ^ (- -53)) with 9007199254740992 in k. subst k.
        change (2 ^ 52) with 4503599627370496. lia.
      * intros L.
        assert (Hm : k <= 2 * Z.pos m).
        { destruct L as [L|[-> L]].
          - assert (2 ^ 52 <= Z.pos m) by (apply N; lia).
            assert (k <= 2 ^ 52) by (apply Z.pow_le_mono_r; lia). lia.
          - change (2 ^ (- -53)) with 9007199254740992 in k. subst k.
            change (2 ^ 52) with 4503599627370496 in L. lia. }
        assert (Hk : 2 <= k).
        { change 2 with (2 ^ 1) at 1. apply Z.pow_le_mono_r; lia. }
        assert (L1 : 1 <= (2 * Z.pos m + k) / (2 * k))
          by (apply Z.div_le_lower_bound; lia).
        assert (L2 : (2 * Z.pos m + k) / (2 * k) < 2 ^ 53).
        { apply Z.div_lt_upper_bound; [lia|].
          change (2 ^ 53) with 9007199254740992 in *. lia. }
        destruct ((2 * Z.pos m + k) / (2 * k)) as [|p|p]; try lia.
        destruct (normalize_small p L2) as (m' & e' & ->). reflexivity.
Qed.

(* ================================================================= *)
(** ** The running extremes of the normaliser *)

Lemma raw_price_positive o k pp : raw_price o k = Some pp -> JS.gt pp (JS.of_Z 0) = true.
Proof.
  unfold raw_price. destruct (obj_get k o) as [rd|]; [|discriminate].
  destruct (Scraped.price_pp rd) as [x|]; [|discriminate].
  destruct (JS.gt x (JS.of_Z 0)) eqn:E; [|discriminate].
  intros H. injection H as <-. exact E.
Qed.

Lemma obj_get_In {A} k (o : Obj A) v : obj_get k o = Some v -> In (k, v) o.
Proof.
  induction o as [|[k0 v0] o IH]; simpl; [discriminate|].
  destruct (String.eqb_spec k k0) as [->|_].
  - intros H. injection H as <-. now left.
  - intros H. right. now apply IH.
Qed.

Lemma raw_price_binary64 o k pp :
  forallb room_binary64 o = true -> raw_price o k = Some pp -> binary64 pp = true.
Proof.
  intros V. unfold raw_price. destruct (obj_get k o) as [rd|] eqn:G; [|discriminate].
  apply obj_get_In in G. rewrite forallb_forall in V. specialize (V _ G).
  unfold room_binary64 in V. cbn [snd] in V.
  destruct (Scraped.price_pp rd) as [x|]; [|discriminate].
  destruct (JS.gt x (JS.of_Z 0)); [|discriminate].
  intros H. injection H as <-. exact V.
Qed.

Lemma raw_prices_In o rt pp :
  In pp (raw_prices o rt) <-> exists k, In k rt /\ raw_price o k = Some pp.
Proof.
  unfold raw_prices. rewrite in_flat_map. split.
  - intros (k & Hk & H). exists k. split; [exact Hk|].
    destruct (raw_price o k) as [x|]; [|destruct H].
    destruct H as [->|[]]. reflexivity.
  - intros (k & Hk & H). exists k. split; [exact Hk|]. rewrite H. now left.
Qed.

Section LiveExtremes.

Variable d : Z.

Lemma live_scan_extremes m o rt : forall s s',
  Scraped.rooms m = Some o ->
  foldM (live_step d m) rt s = Normal s' ->
  ch s' = fold_left min_step (raw_prices o rt) (ch s) /\
  mx s' = fold_left max_step (raw_prices o rt) (mx s) /\
  (forall k r, In (k, r) (scan_rooms s') -> In k rt \/ In (k, r) (scan_rooms s)).
Proof.
  intros s s' Ho. revert s s'.
  induction rt as [|x rt IH]; intros s s' H.
  - simpl in H. injection H as <-. repeat split. intros; now right.
  - cbn [foldM] in H. unfold live_step at 1 in H. rewrite Ho in H.
    unfold raw_prices. cbn [flat_map]. fold (raw_prices o rt).
    destruct (raw_price o x) as [pp|] eqn:Ep; simpl in H;
      destruct (IH _ _ H) as (C & M & K); cbn [ch mx scan_rooms] in C, M, K;
      (split; [exact C|]); (split; [exact M|]);
      intros k r Hin; destruct (K k r Hin) as [?|Hs];
      try (left; now right);
      apply obj_set_In in Hs; destruct Hs as [[-> _]|Hs];
      [left; now left | now right | left; now left | now right].
Qed.

End LiveExtremes.

Section LivePriced.

Variable parseInt : string -> JS.Number.
Variable d : Z.

(** In a month that survives the filter, the rooms with a positive
    rounded price are exactly the available ones. *)
Lemma live_month_priced rt mrec m :
  month_binary64 mrec = true ->
  live_month parseInt rt d mrec = Normal m ->
  valid_month m = true ->
  forall r, In r (Object_values (rooms m)) -> priced r = available r.
Proof.
  unfold live_month, month_binary64. intros V H Hv r Hr.
  destruct (foldM (live_step d mrec) rt scan_start) as [s|] eqn:Es; [|discriminate H].
  simpl in H. injection H as <-.
  cbn [rooms] in Hr. unfold valid_month in Hv. cbn [cheapest] in Hv.
  destruct (Scraped.rooms mrec) as [o|] eqn:Eo.
  - destruct (live_scan_extremes d mrec o rt _ _ Eo Es) as (C & _ & K).
    cbn [ch scan_rooms scan_start] in C, K.
    destruct (JS.strict_eq (ch s) JS.Infinity) eqn:Ei; [discriminate Hv|].
    assert (Hc : In (ch s) (raw_prices o rt)).
    { destruct (fold_min_attained (raw_prices o rt) JS.Infinity) as [E|E].
      - rewrite <- C in E. rewrite E in Ei. discriminate Ei.
      - now rewrite C. }
    pose proof Hc as Hc'. apply raw_prices_In in Hc'. destruct Hc' as (k0 & _ & R0).
    assert (Hh : JS.lt (ch s) half = false).
    { apply round_positive; eauto using raw_price_binary64, raw_price_positive. }
    assert (Hn : ch s <> JS.NaN).
    { intros E. apply raw_price_positive in R0. rewrite E in R0. discriminate R0. }
    apply Object_values_In in Hr. destruct Hr as [k Hk].
    assert (Hk' : In k rt) by (destruct (K k r Hk) as [?|[]]; assumption).
    assert (S : scraped_room d o k r).
    { eapply live_scan_rooms; eauto. simpl. tauto. }
    unfold scraped_room in S. destruct (raw_price o k) as [pp|] eqn:Ep; subst r.
    + unfold priced. cbn [price available].
      apply round_positive; eauto using raw_price_binary64, raw_price_positive.
      eapply not_lt_trans; [exact Hn | exact Hh |].
      rewrite C. apply fold_min_bounds; [discriminate|].
      apply raw_prices_In. eauto.
    + reflexivity.
  - destruct rt as [|x rt].
    + simpl in Es. injection Es as <-. destruct Hr.
    + rewrite live_scan_throws in Es; congruence.
Qed.

Lemma live_month_spec_avgPrice rt mrec m :
  month_binary64 mrec = true ->
  live_month parseInt rt d mrec = Normal m ->
  valid_month m = true ->
  avgPrice m = Spec.live_avgPrice (rooms m).
Proof.
  intros V H Hv. rewrite (live_month_avgPrice parseInt d rt mrec m H).
  unfold Spec.live_avgPrice.
  rewrite (filter_ext_in priced available (Object_values (rooms m)));
    [reflexivity | eapply live_month_priced; eauto].
Qed.

(** Every month of the result was built from a month record of the hotel
    and passed the filter. *)
Lemma build_month_origin h ap g m :
  buildLiveMonths parseInt h ap d = Normal (Some g) ->
  In m (months g) ->
  exists mrec,
    In mrec (months_of h) /\
    live_month parseInt (room_types_of h) d mrec = Normal m /\
    valid_month m = true.
Proof.
  intros H Hm. apply build_Some in H. destruct H as (ms' & M & F & _ & _).
  rewrite F in Hm. apply filter_In in Hm. destruct Hm as [Hm Hv].
  destruct (mapM_In _ _ _ _ M Hm) as (mrec & Hin & E). eauto.
Qed.

End LivePriced.

(* ================================================================= *)
(** ** C1: cheapest and mostExpensive of the synthetic grid *)

Lemma entry_rooms_values Math_sin now hotel airport duration board i k r :
  In (k, r) (rooms (demo_month Math_sin now hotel airport duration board i)) ->
  In r (Object_values (rooms (demo_month Math_sin now hotel airport duration board i))).
Proof.
  rewrite entry_values, entry_rooms, !in_map_iff.
  intros (ix & E & Hix). injection E as _ <-. exists ix. split; [reflexivity | exact Hix].
Qed.

Lemma entry_values_rooms Math_sin now hotel airport duration board i r :
  In r (Object_values (rooms (demo_month Math_sin now hotel airport duration board i))) ->
  exists k, In (k, r) (rooms (demo_month Math_sin now hotel airport duration board i)).
Proof. apply Object_values_In. Qed.

(** C1, as stated, fails.  For "Sunwing Alcudia Beach" from MAN, 7 nights,
    Half Board, generated in November 2026, the entry at offset 5 (April)
    marks Standard Double unavailable, and [cheapest] is nevertheless the
    price of that room, not the minimum over the available rooms. *)
Lemma C1_counterexample :
  exists m r,
    nth_error
      (generateDemoData SinRef.sin clock_2026_11_02 "Sunwing Alcudia Beach" "MAN" 7 "Half Board")
      5 = Some m /\
    obj_get "Standard Double" (rooms m) = Some r /\
    available r = false /\
    cheapest m = price r /\
    cheapest m <> Spec.cheapest (rooms m).
Proof.
  exists (demo_month SinRef.sin clock_2026_11_02 "Sunwing Alcudia Beach" "MAN" 7 "Half Board" 5).
  exists (demo_room SinRef.sin "Sunwing Alcudia Beach" "MAN" 7 "Half Board" 5 3 0
            "Standard Double").
  split; [apply grid_nth; lia|].
  split; [reflexivity|].
  split; [vm_compute; reflexivity|].
  split; [vm_compute; reflexivity|].
  vm_compute. discriminate.
Qed.

(** C1, amended: in every entry of the synthetic grid, [cheapest] is the
    running minimum, started at Infinity, of the prices of all five rooms,
    and [mostExpensive] the running maximum, started at 0, of the same
    prices, whatever the rooms' availability: no price is below
    [cheapest] or above [mostExpensive], each of the two is attained by a
    room (or is its start value), and the grid keeps its 12 entries. *)
Theorem C1_demo_extremes_over_all_rooms Math_sin now hotel airport duration board m :
  In m (generateDemoData Math_sin now hotel airport duration board) ->
  cheapest m = fold_left min_step (map price (Object_values (rooms m))) JS.Infinity /\
  mostExpensive m = fold_left max_step (map price (Object_values (rooms m))) (JS.of_Z 0) /\
  (forall k r, In (k, r) (rooms m) ->
     JS.lt (price r) (cheapest m) = false /\ JS.gt (price r) (mostExpensive m) = false) /\
  (cheapest m = JS.Infinity \/ exists k r, In (k, r) (rooms m) /\ price r = cheapest m) /\
  (mostExpensive m = JS.of_Z 0 \/
   exists k r, In (k, r) (rooms m) /\ price r = mostExpensive m) /\
  List.length (generateDemoData Math_sin now hotel airport duration board) = 12%nat.
Proof.
  intros Hm. apply grid_In in Hm. destruct Hm as (i & Hi & ->).
  pose proof (entry_cheapest Math_sin now hotel airport duration board i) as C.
  pose proof (entry_mostExpensive Math_sin now hotel airport duration board i) as M.
  split; [exact C|]. split; [exact M|].
  split; [|split; [|split; [|apply grid_length]]].
  - intros k r Hin. apply entry_rooms_values in Hin.
    assert (Hp : In (price r)
                   (map price (Object_values
                      (rooms (demo_month Math_sin now hotel airport duration board i)))))
      by (apply in_map; exact Hin).
    split.
    + rewrite C. apply fold_min_bounds; [discriminate | exact Hp].
    + unfold JS.gt. rewrite M. apply fold_max_bounds; [discriminate | exact Hp].
  - destruct (fold_min_attained
                (map price (Object_values
                   (rooms (demo_month Math_sin now hotel airport duration board i))))
                JS.Infinity) as [E|E]; rewrite <- C in E; [now left | right].
    apply in_map_iff in E. destruct E as (r & Er & Hr).
    apply entry_values_rooms in Hr. destruct Hr as [k Hk]. eauto.
  - destruct (fold_max_attained
                (map price (Object_values
                   (rooms (demo_month Math_sin now hotel airport duration board i))))
                (JS.of_Z 0)) as [E|E]; rewrite <- M in E; [now left | right].
    apply in_map_iff in E. destruct E as (r & Er & Hr).
    apply entry_values_rooms in Hr. destruct Hr as [k Hk]. eauto.
Qed.

(** C1, witness: the theorem at the April entry of the example above. *)
Lemma C1_demo_extremes_witness :
  exists m,
    In m (generateDemoData SinRef.sin clock_2026_11_02 "Sunwing Alcudia Beach" "MAN" 7
            "Half Board") /\
    cheapest m = fold_left min_step (map price (Object_values (rooms m))) JS.Infinity.
Proof.
  exists (demo_month SinRef.sin clock_2026_11_02 "Sunwing Alcudia Beach" "MAN" 7 "Half Board" 5).
  assert (H : In (demo_month SinRef.sin clock_2026_11_02 "Sunwing Alcudia Beach" "MAN" 7
                    "Half Board" 5)
                (generateDemoData SinRef.sin clock_2026_11_02 "Sunwing Alcudia Beach" "MAN" 7
                    "Half Board")).
  { apply nth_error_In with (n := 5%nat). apply grid_nth. lia. }
  split; [exact H|].
  exact (proj1 (C1_demo_extremes_over_all_rooms SinRef.sin clock_2026_11_02
                  "Sunwing Alcudia Beach" "MAN" 7 "Half Board" _ H)).
Defined.

(* ================================================================= *)
(** ** C2: null results and exceptions of the normaliser *)





(* ================================================================= *)
(** ** C3: perNight *)

(** C3, as stated, fails for the normaliser: with a raw price of 454.6
    and 14 nights, [price] is 455 and [perNight] is round(454.6 / 14) =
    32, while round(455 / 14) = round(32.5) = 33. *)
Lemma C3_counterexample :
  exists g m r,
    buildLiveMonths ParseIntRef.parseInt hotel_suite_fraction "MAN" 14 = Normal (Some g) /\
    In m (months g) /\
    obj_get "Suite" (rooms m) = Some r /\
    perNight r <> JS.Math_round (JS.div (price r) (JS.of_Z 14)).
Proof.
  do 3 eexists.
  split; [vm_compute; reflexivity|].
  split; [left; reflexivity|].
  split; [reflexivity|].
  vm_compute. discriminate.
Qed.

(** C3, amended: in the synthetic grid every room has perNight =
    round(price / duration).  In the normalised grid an unavailable room
    has price 0 and perNight 0, and an available room has price =
    round(raw) and perNight = round(raw / duration) for its raw scraped
    price, which is round(price / duration) whenever the raw price is
    already an integer. *)
Theorem C3_perNight :
  (forall Math_sin now hotel airport duration board m k r,
     In m (generateDemoData Math_sin now hotel airport duration board) ->
     In (k, r) (rooms m) ->
     perNight r = JS.Math_round (JS.div (price r) (JS.of_Z duration))) /\
  (forall parseInt h ap d g m k r,
     buildLiveMonths parseInt h ap d = Normal (Some g) ->
     In m (months g) ->
     In (k, r) (rooms m) ->
     (available r = false /\ price r = JS.of_Z 0 /\ perNight r = JS.of_Z 0) \/
     (exists mrec o pp,
        In mrec (months_of h) /\ Scraped.rooms mrec = Some o /\
        raw_price o k = Some pp /\
        available r = true /\
        price r = JS.Math_round pp /\
        perNight r = JS.Math_round (JS.div pp (JS.of_Z d)) /\
        (JS.Math_round pp = pp ->
         perNight r = JS.Math_round (JS.div (price r) (JS.of_Z d))))).
Proof.
  split.
  - intros Math_sin now hotel airport duration board m k r Hm Hr.
    apply grid_In in Hm. destruct Hm as (i & _ & ->).
    apply entry_rooms_In in Hr. destruct Hr as (ri & _ & ->). reflexivity.
  - intros parseInt h ap d g m k r H Hm Hr.
    destruct (build_month_origin parseInt d h ap g m H Hm) as (mrec & Hin & E & _).
    destruct (live_month_rooms parseInt d _ _ _ E k r Hr) as (o & Ho & S).
    unfold scraped_room in S. destruct (raw_price o k) as [pp|] eqn:Ep; subst r.
    + right. exists mrec, o, pp. cbn [price available perNight].
      repeat split; try assumption. intros ->. reflexivity.
    + left. repeat split.
Qed.

(** C3, witness: a room of the example grid, and the suite at 450 for 10
    nights of the specification's scenario, whose perNight is
    round(450 / 10). *)
Lemma C3_perNight_witness :
  (exists m r,
     In m (generateDemoData SinRef.sin clock_2026_11_02 "Sunwing Alcudia Beach" "MAN" 7
             "Half Board") /\
     In ("Suite", r) (rooms m) /\
     perNight r = JS.Math_round (JS.div (price r) (JS.of_Z 7))) /\
  (exists g m r,
     buildLiveMonths ParseIntRef.parseInt hotel_suite_450 "MAN" 10 = Normal (Some g) /\
     In m (months g) /\ In ("Suite", r) (rooms m) /\
     ((available r = false /\ price r = JS.of_Z 0 /\ perNight r = JS.of_Z 0) \/
      (exists mrec o pp,
         In mrec (months_of hotel_suite_450) /\ Scraped.rooms mrec = Some o /\
         raw_price o "Suite" = Some pp /\
         available r = true /\
         price r = JS.Math_round pp /\
         perNight r = JS.Math_round (JS.div pp (JS.of_Z 10)) /\
         (JS.Math_round pp = pp ->
          perNight r = JS.Math_round (JS.div (price r) (JS.of_Z 10)))))).
Proof.
  split.
  - exists (demo_month SinRef.sin clock_2026_11_02 "Sunwing Alcudia Beach" "MAN" 7
              "Half Board" 0).
    exists (demo_room SinRef.sin "Sunwing Alcudia Beach" "MAN" 7 "Half Board" 0 10 3 "Suite").
    assert (H1 : In (demo_month SinRef.sin clock_2026_11_02 "Sunwing Alcudia Beach" "MAN" 7
                       "Half Board" 0)
                   (generateDemoData SinRef.sin clock_2026_11_02 "Sunwing Alcudia Beach" "MAN"
                       7 "Half Board")).
    { apply nth_error_In with (n := 0%nat). apply grid_nth. lia. }
    assert (H2 : In ("Suite",
                     demo_room SinRef.sin "Sunwing Alcudia Beach" "MAN" 7 "Half Board" 0 10 3
                       "Suite")
                   (rooms (demo_month SinRef.sin clock_2026_11_02 "Sunwing Alcudia Beach"
                             "MAN" 7 "Half Board" 0))).
    { rewrite entry_rooms. unfold ROOM_TYPES. cbn [map combine seq fst snd].
      do 3 right. left. reflexivity. }
    split; [exact H1|]. split; [exact H2|].
    exact (proj1 C3_perNight SinRef.sin clock_2026_11_02 "Sunwing Alcudia Beach" "MAN" 7
             "Half Board" _ _ _ H1 H2).
  - do 3 eexists.
    split; [vm_compute; reflexivity|].
    split; [left; reflexivity|].
    split; [left; reflexivity|].
    eapply (proj2 C3_perNight ParseIntRef.parseInt hotel_suite_450 "MAN" 10).
    + vm_compute. reflexivity.
    + left. reflexivity.
    + left. reflexivity.
Defined.

(* ================================================================= *)
(** ** C4: number of entries *)

Lemma month_labels_distinct k :
  (k < 12)%nat ->
  NoDup (map (fun i => nth ((k + i) mod 12) MONTHS EmptyString) (seq 0 12)).
Proof.
  intros Hk.
  do 12 (destruct k as [|k];
         [vm_compute; repeat constructor; simpl; intuition discriminate|]).
  lia.
Qed.

(** C4, as stated, fails for the normaliser: a hotel record with 13
    scraped months, each with a price, is normalised to 13 entries. *)
Lemma C4_counterexample :
  exists g,
    buildLiveMonths ParseIntRef.parseInt hotel_13_months "MAN" 7 = Normal (Some g) /\
    (12 < List.length (months g))%nat.
Proof.
  eexists. split; [vm_compute; reflexivity|]. simpl. lia.
Qed.

(** C4, amended: the synthetic grid has exactly 12 entries with 12
    distinct month labels; the entry at offset [i] is labelled with the
    calendar month [i] months after the current one, in the current year
    or, past December, the next.  The normaliser returns at least one
    entry and at most as many entries as the hotel record has months;
    the 0-entry case is [null]. *)
Theorem C4_grid_sizes :
  (forall Math_sin now hotel airport duration board,
     List.length (generateDemoData Math_sin now hotel airport duration board) = 12%nat /\
     NoDup (map month (generateDemoData Math_sin now hotel airport duration board)) /\
     forall i, (i < 12)%nat ->
       exists m,
         nth_error (generateDemoData Math_sin now hotel airport duration board) i = Some m /\
         month m = nth ((getMonth now + i) mod 12) MONTHS EmptyString /\
         year m =
           JS.of_Z (getFullYear now + (if (12 <=? getMonth now + i)%nat then 1 else 0))) /\
  (forall parseInt h ap d g,
     buildLiveMonths parseInt h ap d = Normal (Some g) ->
     (1 <= List.length (months g) <= List.length (months_of h))%nat).
Proof.
  split.
  - intros Math_sin now hotel airport duration board.
    split; [apply grid_length|]. split.
    + rewrite grid_map, map_map.
      rewrite (map_ext _ (fun i => nth ((getMonth now mod 12 + i) mod 12) MONTHS EmptyString)).
      * apply month_labels_distinct. apply Nat.mod_upper_bound. discriminate.
      * intros i. rewrite (proj1 (entry_label Math_sin now hotel airport duration board i)).
        unfold month_index. now rewrite Nat.Div0.add_mod_idemp_l.
    + intros i Hi. exists (demo_month Math_sin now hotel airport duration board i).
      split; [apply grid_nth, Hi | apply entry_label].
  - intros parseInt h ap d g H.
    apply build_Some in H. destruct H as (ms' & M & F & N & _).
    apply mapM_length in M. split.
    + destruct (months g); [congruence | simpl; lia].
    + rewrite F, <- M. apply filter_length_le.
Qed.

(** C4, witness: the first entry of the example grid, and the one-month
    record of the specification's scenario. *)
Lemma C4_grid_sizes_witness :
  (exists m,
     nth_error
       (generateDemoData SinRef.sin clock_2026_11_02 "Sunwing Alcudia Beach" "MAN" 7 "Half Board")
       0 = Some m /\
     month m = "Nov") /\
  (exists g,
     buildLiveMonths ParseIntRef.parseInt hotel_suite_450 "MAN" 10 = Normal (Some g) /\
     (1 <= List.length (months g) <= 1)%nat).
Proof.
  split.
  - destruct (proj1 C4_grid_sizes SinRef.sin clock_2026_11_02 "Sunwing Alcudia Beach" "MAN" 7
                "Half Board") as (_ & _ & H).
    destruct (H 0%nat) as (m & H1 & H2 & _); [lia|].
    exists m. split; [exact H1 | exact H2].
  - eexists. split; [vm_compute; reflexivity|].
    eapply (proj2 C4_grid_sizes ParseIntRef.parseInt hotel_suite_450 "MAN" 10).
    vm_compute. reflexivity.
Defined.

(* ================================================================= *)
(** ** C5: avgPrice *)

Lemma prices_binary64_month h mrec :
  prices_binary64 h = true -> In mrec (months_of h) -> month_binary64 mrec = true.
Proof.
  unfold prices_binary64. rewrite forallb_forall. auto.
Qed.

(** C5: in the synthetic grid, avgPrice is round(sum of the prices of all
    five rooms / 5), whatever their availability; in the normalised grid
    (of a record whose raw prices are binary64 values), avgPrice is
    round(sum of the prices of the available rooms / max(number of
    available rooms, 1)).  The two rules differ: the April entry of the
    example grid has an unavailable room and its avgPrice is not the
    mean of its available rooms. *)
Theorem C5_avgPrice :
  (forall Math_sin now hotel airport duration board m,
     In m (generateDemoData Math_sin now hotel airport duration board) ->
     avgPrice m = Spec.demo_avgPrice (rooms m) /\
     List.length (Object_values (rooms m)) = List.length ROOM_TYPES) /\
  (forall parseInt h ap d g m,
     prices_binary64 h = true ->
     buildLiveMonths parseInt h ap d = Normal (Some g) ->
     In m (months g) ->
     avgPrice m = Spec.live_avgPrice (rooms m)) /\
  (exists m,
     In m (generateDemoData SinRef.sin clock_2026_11_02 "Sunwing Alcudia Beach" "MAN" 7
             "Half Board") /\
     avgPrice m <> Spec.live_avgPrice (rooms m)).
Proof.
  split; [|split].
  - intros Math_sin now hotel airport duration board m Hm.
    apply grid_In in Hm. destruct Hm as (i & _ & ->).
    split; [apply entry_avgPrice|]. rewrite entry_values. reflexivity.
  - intros parseInt h ap d g m V H Hm.
    destruct (build_month_origin parseInt d h ap g m H Hm) as (mrec & Hin & E & Hv).
    eapply live_month_spec_avgPrice; eauto using prices_binary64_month.
  - exists (demo_month SinRef.sin clock_2026_11_02 "Sunwing Alcudia Beach" "MAN" 7
              "Half Board" 5).
    split.
    + apply nth_error_In with (n := 5%nat). apply grid_nth. lia.
    + vm_compute. discriminate.
Qed.

(** C5, witness: an entry of the example grid, and the month of the
    specification's scenario. *)
Lemma C5_avgPrice_witness :
  (exists m,
     In m (generateDemoData SinRef.sin clock_2026_11_02 "Sunwing Alcudia Beach" "MAN" 7
             "Half Board") /\
     avgPrice m = Spec.demo_avgPrice (rooms m)) /\
  (exists g m,
     buildLiveMonths ParseIntRef.parseInt hotel_suite_450 "MAN" 10 = Normal (Some g) /\
     In m (months g) /\
     avgPrice m = Spec.live_avgPrice (rooms m)).
Proof.
  split.
  - exists (demo_month SinRef.sin clock_2026_11_02 "Sunwing Alcudia Beach" "MAN" 7
              "Half Board" 5).
    assert (H : In (demo_month SinRef.sin clock_2026_11_02 "Sunwing Alcudia Beach" "MAN" 7
                      "Half Board" 5)
                  (generateDemoData SinRef.sin clock_2026_11_02 "Sunwing Alcudia Beach" "MAN"
                      7 "Half Board")).
    { apply nth_error_In with (n := 5%nat). apply grid_nth. lia. }
    split; [exact H|].
    exact (proj1 (proj1 C5_avgPrice SinRef.sin clock_2026_11_02 "Sunwing Alcudia Beach" "MAN"
                    7 "Half Board" _ H)).
  - do 2 eexists.
    split; [vm_compute; reflexivity|].
    split; [left; reflexivity|].
    eapply (proj1 (proj2 C5_avgPrice) ParseIntRef.parseInt hotel_suite_450 "MAN" 10).
    + vm_compute. reflexivity.
    + vm_compute. reflexivity.
    + left. reflexivity.
Defined.

(* ================================================================= *)
(** ** C6: the price formula *)

(** C6: for a board basis of the supported list, the room of type
    [ROOM_TYPES[roomIndex]] in the entry at offset [i] has the price
    round(base * seasonalMultiplier[monthIndex] * durationMultiplier *
    boardMultiplier * roomMultiplier * (0.95 + rand(i*10 + roomIndex) *
    0.1)), with base = 400 + rand(1) * 600, the seed the sum of the
    character codes of the four concatenated fields and rand(j) the
    fractional part of sin(seed + j) * 10000. *)
Theorem C6_price_formula Math_sin now hotel airport duration board i roomIndex roomType :
  In board BOARD_TYPES ->
  (i < 12)%nat ->
  nth_error ROOM_TYPES roomIndex = Some roomType ->
  exists m r,
    nth_error (generateDemoData Math_sin now hotel airport duration board) i = Some m /\
    obj_get roomType (rooms m) = Some r /\
    price r =
      Spec.room_price Math_sin hotel airport duration board
        ((getMonth now + i) mod 12) i roomIndex roomType.
Proof.
  intros Hb Hi Hr.
  exists (demo_month Math_sin now hotel airport duration board i).
  exists (demo_room Math_sin hotel airport duration board i (month_index now i)
            roomIndex roomType).
  split; [apply grid_nth, Hi|].
  split; [apply entry_room, Hr|].
  apply room_price_spec; assumption.
Qed.

(** C6, witness: Suite (room index 3) in the entry at offset 2 of the
    example grid. *)
Lemma C6_price_formula_witness :
  exists m r,
    nth_error
      (generateDemoData SinRef.sin clock_2026_11_02 "Sunwing Alcudia Beach" "MAN" 7 "Half Board")
      2 = Some m /\
    obj_get "Suite" (rooms m) = Some r /\
    price r =
      Spec.room_price SinRef.sin "Sunwing Alcudia Beach" "MAN" 7 "Half Board" 0 2 3 "Suite".
Proof.
  apply (C6_price_formula SinRef.sin clock_2026_11_02 "Sunwing Alcudia Beach" "MAN" 7
           "Half Board" 2 3 "Suite").
  - simpl. tauto.
  - lia.
  - reflexivity.
Defined.

(* ================================================================= *)
(** ** C7: repeated calls *)

(** C7, as stated, fails: the generator reads the clock, and two calls
    with the same four arguments, one on 30 November 2026 and one on
    1 December 2026, return different grids (the first starts at "Nov",
    the second at "Dec"). *)
Lemma C7_counterexample :
  generateDemoData SinRef.sin clock_2026_11_30 "Sunwing Alcudia Beach" "MAN" 7 "Half Board" <>
  generateDemoData SinRef.sin clock_2026_12_01 "Sunwing Alcudia Beach" "MAN" 7 "Half Board".
Proof.
  intros H.
  apply (f_equal (fun g => option_map month (nth_error g 0))) in H.
  rewrite !grid_nth in H by lia. cbn [option_map] in H.
  rewrite (proj1 (entry_label SinRef.sin clock_2026_11_30 _ _ _ _ 0%nat)) in H.
  rewrite (proj1 (entry_label SinRef.sin clock_2026_12_01 _ _ _ _ 0%nat)) in H.
  vm_compute in H. discriminate H.
Qed.

(** C7, amended: for fixed hotel name, airport code, duration and board
    basis, two calls made while the clock shows the same month and year
    return identical grids of 12 entries. *)
Theorem C7_deterministic_within_a_month Math_sin clock1 clock2 hotel airport duration board :
  getMonth clock1 = getMonth clock2 ->
  getFullYear clock1 = getFullYear clock2 ->
  generateDemoData Math_sin clock1 hotel airport duration board =
  generateDemoData Math_sin clock2 hotel airport duration board /\
  List.length (generateDemoData Math_sin clock1 hotel airport duration board) = 12%nat.
Proof.
  intros Hm Hy. split; [|apply grid_length].
  rewrite !grid_map. apply map_ext. intros i.
  unfold demo_month. rewrite Hm, Hy. reflexivity.
Qed.

(** C7, witness: the scenario of the specification, called on 2 and on
    30 November 2026. *)
Lemma C7_deterministic_witness :
  generateDemoData SinRef.sin clock_2026_11_02 "Sunwing Alcudia Beach" "MAN" 7 "Half Board" =
  generateDemoData SinRef.sin clock_2026_11_30 "Sunwing Alcudia Beach" "MAN" 7 "Half Board".
Proof.
  apply (C7_deterministic_within_a_month SinRef.sin clock_2026_11_02 clock_2026_11_30);
    reflexivity.
Defined.

(* ================================================================= *)
(** ** C8: the availability draw *)

(** C8, as stated, fails: at month offset 0 the availability index
    i*100 + roomIndex and the jitter index i*10 + roomIndex are the same
    number, so the first entry draws availability and jitter of a room
    from the same value. *)
Lemma C8_counterexample :
  exists i ri, (i < 12)%nat /\ (ri < 5)%nat /\ avail_index i ri = jitter_index i ri.
Proof. exists 0%nat, 0%nat. repeat split; lia. Qed.

(** C8, amended: the room of type [ROOM_TYPES[roomIndex]] in the entry
    at offset [i] is marked available exactly when rand(i*100 +
    roomIndex) > 0.15; that index differs from the jitter index i*10 +
    roomIndex of the same room and month exactly when i is not 0. *)
Theorem C8_availability_draw Math_sin now hotel airport duration board i roomIndex roomType :
  (i < 12)%nat ->
  nth_error ROOM_TYPES roomIndex = Some roomType ->
  exists m r,
    nth_error (generateDemoData Math_sin now hotel airport duration board) i = Some m /\
    obj_get roomType (rooms m) = Some r /\
    available r =
      JS.gt (Spec.rand Math_sin hotel airport duration board
               (Z.of_nat i * 100 + Z.of_nat roomIndex))
            (JS.dec 15 100) /\
    avail_index i roomIndex = Z.of_nat i * 100 + Z.of_nat roomIndex /\
    jitter_index i roomIndex = Z.of_nat i * 10 + Z.of_nat roomIndex /\
    (avail_index i roomIndex <> jitter_index i roomIndex <-> i <> 0%nat).
Proof.
  intros Hi Hr.
  exists (demo_month Math_sin now hotel airport duration board i).
  exists (demo_room Math_sin hotel airport duration board i (month_index now i)
            roomIndex roomType).
  split; [apply grid_nth, Hi|].
  split; [apply entry_room, Hr|].
  split.
  - unfold demo_room. cbn [available]. rewrite rng_spec. unfold avail_index.
    rewrite Nat2Z.inj_add, Nat2Z.inj_mul. reflexivity.
  - unfold avail_index, jitter_index. repeat split; lia.
Qed.

(** C8, witness: Family Room (room index 2) at offset 1. *)
Lemma C8_availability_draw_witness :
  exists m r,
    nth_error
      (generateDemoData SinRef.sin clock_2026_11_02 "Sunwing Alcudia Beach" "MAN" 7 "Half Board")
      1 = Some m /\
    obj_get "Family Room" (rooms m) = Some r /\
    available r =
      JS.gt (Spec.rand SinRef.sin "Sunwing Alcudia Beach" "MAN" 7 "Half Board" 102)
            (JS.dec 15 100).
Proof.
  destruct (C8_availability_draw SinRef.sin clock_2026_11_02 "Sunwing Alcudia Beach" "MAN" 7
              "Half Board" 1 2 "Family Room") as (m & r & H1 & H2 & H3 & _).
  - lia.
  - reflexivity.
  - exists m, r. repeat split; assumption.
Defined.

(* ================================================================= *)
(** ** C9: the start-up fetch *)

(** C9: whatever the outcome of the fetch, the live status ends as "ok"
    or "none", never "loading": it is "ok" exactly for an ok response
    whose document has a truthy [hotels.length], and "none" for a
    rejected fetch, a non-ok response, a body that does not parse, a
    document without [hotels] and a document with an empty hotel list;
    a document whose [hotels] is a non-empty array (of fewer than 2^32
    elements, as every array is) gives "ok". *)
Theorem C9_fetch_resolves st o :
  (Fetch.liveStatus (Fetch.startup st o) = Fetch.ok \/
   Fetch.liveStatus (Fetch.startup st o) = Fetch.none) /\
  Fetch.liveStatus (Fetch.startup st o) <> Fetch.loading /\
  Fetch.liveStatus (Fetch.startup st o) =
    match o with
    | Fetch.Response true (Fetch.Parsed doc) =>
        if Fetch.has_hotels doc then Fetch.ok else Fetch.none
    | _ => Fetch.none
    end /\
  (forall fields hotels,
     o = Fetch.Response true (Fetch.Parsed (Fetch.JObj fields)) ->
     obj_get "hotels" fields = Some (Fetch.JArr hotels) ->
     Z.of_nat (List.length hotels) < 2 ^ 32 ->
     Fetch.liveStatus (Fetch.startup st o) =
       match hotels with [] => Fetch.none | _ :: _ => Fetch.ok end) /\
  (forall fields,
     o = Fetch.Response true (Fetch.Parsed (Fetch.JObj fields)) ->
     obj_get "hotels" fields = None ->
     Fetch.liveStatus (Fetch.startup st o) = Fetch.none).
Proof.
  assert (E : Fetch.liveStatus (Fetch.startup st o) =
              match o with
              | Fetch.Response true (Fetch.Parsed doc) =>
                  if Fetch.has_hotels doc then Fetch.ok else Fetch.none
              | _ => Fetch.none
              end).
  { destruct o as [|[|] [|doc]]; try reflexivity.
    unfold Fetch.startup, Fetch.on_response, Fetch.on_document, Fetch.has_hotels.
    cbn [negb bind].
    destruct (Fetch.get_hotels doc) as [hotels|e]; [|reflexivity].
    cbn [bind]. destruct (Fetch.truthy (Fetch.opt_length hotels)); reflexivity. }
  split; [|split; [|split; [exact E|split]]].
  - rewrite E. destruct o as [|[|] [|doc]]; auto. destruct (Fetch.has_hotels doc); auto.
  - rewrite E. destruct o as [|[|] [|doc]]; try discriminate.
    destruct (Fetch.has_hotels doc); discriminate.
  - intros fields hotels -> H B. rewrite E.
    unfold Fetch.has_hotels, Fetch.get_hotels. rewrite H.
    destruct hotels as [|x hotels]; [reflexivity|].
    cbn [Fetch.opt_length Fetch.truthy]. unfold JS.of_Z.
    destruct (Z.of_nat (List.length (x :: hotels))) as [|p|p] eqn:L;
      [discriminate L | | lia].
    destruct (normalize_small p) as (m & e & ->); [|reflexivity].
    assert (2 ^ 32 < 2 ^ 53) by reflexivity. lia.
  - intros fields -> H. rewrite E.
    unfold Fetch.has_hotels, Fetch.get_hotels. rewrite H. reflexivity.
Qed.

(** C9, witness: from the initial state, a document with one hotel gives
    "ok", and a document with an empty hotel list gives "none". *)
Lemma C9_fetch_resolves_witness :
  Fetch.liveStatus
    (Fetch.startup Fetch.initial (Fetch.Response true (Fetch.Parsed document_one_hotel)))
  = Fetch.ok /\
  Fetch.liveStatus
    (Fetch.startup Fetch.initial (Fetch.Response true (Fetch.Parsed document_no_hotel)))
  = Fetch.none /\
  Fetch.liveStatus
    (Fetch.startup Fetch.initial
       (Fetch.Response true (Fetch.Parsed (Fetch.JObj [("scraped_at", Fetch.JStr "never")]))))
  = Fetch.none.
Proof.
  split; [|split].
  - exact (proj1 (proj2 (proj2 (proj2
             (C9_fetch_resolves Fetch.initial
                (Fetch.Response true (Fetch.Parsed document_one_hotel))))))
             _ _ eq_refl eq_refl eq_refl).
  - exact (proj1 (proj2 (proj2 (proj2
             (C9_fetch_resolves Fetch.initial
                (Fetch.Response true (Fetch.Parsed document_no_hotel))))))
             _ _ eq_refl eq_refl eq_refl).
  - exact (proj2 (proj2 (proj2 (proj2
             (C9_fetch_resolves Fetch.initial
                (Fetch.Response true
                   (Fetch.Parsed (Fetch.JObj [("scraped_at", Fetch.JStr "never")])))))))
             _ eq_refl eq_refl).
Defined.

(* ================================================================= *)
(** ** C10: absent room types *)

(** C10, as stated, fails: a record with one month and no [room_types]
    field, whose month prices no room type of the default list, is
    normalised to null. *)
Lemma C10_counterexample :
  Scraped._roomTypes hotel_penthouse_only = None /\
  List.length (months_of hotel_penthouse_only) = 1%nat /\
  buildLiveMonths ParseIntRef.parseInt hotel_penthouse_only "MAN" 7 = Normal None.
Proof. repeat split. Qed.

(** C10, amended: when [room_types] is absent the normaliser does not
    return null on that account: it behaves exactly as on the same
    record with the default five room types written out, and a grid it
    returns lists those five room types (it still returns null when
    there is no month or every month is dropped by the filter).  A
    [room_types] list that is present and empty yields null. *)
Theorem C10_default_room_types parseInt h ap d :
  (Scraped._roomTypes h = None ->
   buildLiveMonths parseInt h ap d =
   buildLiveMonths parseInt
     {| Scraped._months := Scraped._months h;
        Scraped._roomTypes :=
          Some ["Standard Double"; "Superior Double"; "Family Room"; "Suite";
                "Sea View Double"] |} ap d /\
   forall g, buildLiveMonths parseInt h ap d = Normal (Some g) ->
             roomTypes g = ROOM_TYPES) /\
  (Scraped._roomTypes h = Some [] -> buildLiveMonths parseInt h ap d = Normal None).
Proof.
  split.
  - intros E. split.
    + unfold buildLiveMonths. cbn [Scraped._months Scraped._roomTypes]. rewrite E.
      reflexivity.
    + intros g H. apply build_Some in H. destruct H as (_ & _ & _ & _ & R).
      rewrite R. unfold room_types_of. now rewrite E.
  - intros E. apply build_null_room_types. unfold room_types_of. now rewrite E.
Qed.

(** C10, witness: a record without [room_types] that prices two default
    room types is normalised to a grid over the default list, and the
    record with an empty list to null. *)
Lemma C10_default_room_types_witness :
  (exists g,
     buildLiveMonths ParseIntRef.parseInt hotel_default_rooms "MAN" 7 = Normal (Some g) /\
     roomTypes g = ROOM_TYPES) /\
  buildLiveMonths ParseIntRef.parseInt hotel_no_room_types "MAN" 7 = Normal None.
Proof.
  split.
  - eexists. split; [vm_compute; reflexivity|].
    apply (proj2 (proj1 (C10_default_room_types ParseIntRef.parseInt hotel_default_rooms
                           "MAN" 7) eq_refl)).
    vm_compute. reflexivity.
  - apply (proj2 (C10_default_room_types ParseIntRef.parseInt hotel_no_room_types "MAN" 7)).
    reflexivity.
Defined.

(* ================================================================= *)
(** * Further properties of the code *)

(* ================================================================= *)
(** ** Own properties: assignment and lookup *)

Lemma obj_get_put_same {A} k (v : A) o : obj_get k (obj_put k v o) = Some v.
Proof.
  induction o as [|[k0 v0] o IH]; simpl.
  - now rewrite String.eqb_refl.
  - destruct (String.eqb_spec k k0) as [->|N]; simpl.
    + now rewrite String.eqb_refl.
    + destruct (String.eqb_spec k k0); [contradiction | exact IH].
Qed.

Lemma obj_get_put_other {A} k k' (v : A) o :
  k' <> k -> obj_get k' (obj_put k v o) = obj_get k' o.
Proof.
  intros N. induction o as [|[k0 v0] o IH]; simpl.
  - destruct (String.eqb_spec k' k); [contradiction | reflexivity].
  - destruct (String.eqb_spec k k0) as [->|N0]; simpl.
    + destruct (String.eqb_spec k' k0); [contradiction | reflexivity].
    + destruct (String.eqb_spec k' k0); [reflexivity | exact IH].
Qed.

Lemma obj_get_set {A} k k' (v : A) o :
  obj_get k' (obj_set k v o) =
  if (String.eqb k' k && negb (String.eqb k "__proto__"))%bool then Some v
  else obj_get k' o.
Proof.
  unfold obj_set. destruct (String.eqb k "__proto__") eqn:P.
  - now rewrite andb_false_r.
  - rewrite andb_true_r. destruct (String.eqb_spec k' k) as [->|N].
    + apply obj_get_put_same.
    + now apply obj_get_put_other.
Qed.

Lemma obj_put_keys {A} k (v : A) o :
  NoDup (map fst o) -> NoDup (map fst (obj_put k v o)) /\
  (forall x, In x (map fst (obj_put k v o)) <-> x = k \/ In x (map fst o)).
Proof.
  induction o as [|[k0 v0] o IH]; simpl; intros ND.
  - split; [repeat constructor; simpl; tauto | intros x; intuition].
  - inversion ND as [|? ? Hn ND']; subst.
    destruct (String.eqb_spec k k0) as [->|N]; simpl.
    + split; [exact ND | intros x; intuition].
    + destruct (IH ND') as [I1 I2]. split.
      * constructor; [|exact I1]. rewrite I2. intros [E|E]; [congruence | contradiction].
      * intros x. rewrite I2. intuition.
Qed.

Lemma obj_set_NoDup {A} k (v : A) o :
  NoDup (map fst o) -> NoDup (map fst (obj_set k v o)).
Proof.
  unfold obj_set. destruct (String.eqb k "__proto__"); [auto | apply obj_put_keys].
Qed.

Lemma obj_In_get {A} k (v : A) o :
  NoDup (map fst o) -> In (k, v) o -> obj_get k o = Some v.
Proof.
  induction o as [|[k0 v0] o IH]; simpl; intros ND H; [destruct H|].
  inversion ND as [|? ? Hn ND']; subst.
  destruct H as [E|H].
  - injection E as -> ->. now rewrite String.eqb_refl.
  - destruct (String.eqb_spec k k0) as [->|N]; [|auto].
    exfalso. apply Hn. apply in_map_iff. exists (k0, v). auto.
Qed.


Lemma insert_by_index_In_iff {A} n (v : A) l x :
  In x (insert_by_index n v l) <-> x = (n, v) \/ In x l.
Proof.
  induction l as [|[n0 v0] l IH]; simpl.
  - intuition.
  - destruct (n <? n0)%N; simpl; [intuition | rewrite IH; intuition].
Qed.


Lemma Object_values_of {A} (o : Obj A) k v : In (k, v) o -> In v (Object_values o).
Proof.
  unfold Object_values. rewrite in_app_iff, in_map_iff.
  induction o as [|[k0 v0] o IH]; simpl; [tauto|].
  intros [E|H].
  - injection E as -> ->. destruct (array_index k) as [n|].
    + left. exists (n, v). split; [reflexivity|]. apply insert_by_index_In_iff. now left.
    + right. now left.
  - destruct (IH H) as [(x & E & Hx)|Hn]; destruct (array_index k0) as [n|].
    + left. exists x. split; [exact E|]. apply insert_by_index_In_iff. now right.
    + left. eauto.
    + now right.
    + right. now right.
Qed.

(* ================================================================= *)
(** ** The rooms of a normalised month *)

(** The entry the loop stores for room type [k]. *)
Lemma scraped_room_unique d o k r r' :
  scraped_room d o k r -> scraped_room d o k r' -> r = r'.
Proof.
  unfold scraped_room. destruct (raw_price o k); congruence.
Qed.

Section LiveRooms.

Variable d : Z.

Lemma live_scan_keys m o rt : forall s s',
  Scraped.rooms m = Some o ->
  foldM (live_step d m) rt s = Normal s' ->
  NoDup (map fst (scan_rooms s)) ->
  NoDup (map fst (scan_rooms s')) /\
  (forall k, k <> "__proto__" ->
     In k rt \/ obj_get k (scan_rooms s) <> None ->
     obj_get k (scan_rooms s') <> None).
Proof.
  intros s s' Ho. revert s s'.
  induction rt as [|x rt IH]; intros s s' H ND.
  - simpl in H. injection H as <-. split; [exact ND | intros k _ [[]|G]; exact G].
  - cbn [foldM] in H. unfold live_step at 1 in H. rewrite Ho in H.
    destruct (raw_price o x) as [pp|] eqn:Ep; simpl in H;
      (destruct (IH _ _ H) as [N1 G]; [cbn [scan_rooms]; now apply obj_set_NoDup|]);
      (split; [exact N1|]); intros k Hp Hk; apply G; auto;
      cbn [scan_rooms]; rewrite obj_get_set;
      (destruct Hk as [[<-|Hk]|Hk]; [right | now left | right]);
      destruct (String.eqb_spec x "__proto__"); try contradiction;
      rewrite ?String.eqb_refl; simpl; try discriminate;
      destruct (String.eqb k x); simpl; (discriminate || exact Hk).
Qed.

End LiveRooms.

Lemma fold_max_positive l :
  l <> [] -> (forall p, In p l -> JS.gt p (JS.of_Z 0) = true) ->
  In (fold_left max_step l (JS.of_Z 0)) l.
Proof.
  destruct l as [|p l]; [congruence|]. intros _ Hpos. cbn [fold_left].
  assert (E : max_step (JS.of_Z 0) p = p).
  { unfold max_step. now rewrite (Hpos p (or_introl eq_refl)). }
  rewrite E. destruct (fold_max_attained l p) as [-> | H]; [now left | now right].
Qed.

Section LiveMonth.

Variable parseInt : string -> JS.Number.
Variable d : Z.

(** What a month that passes the filter was built from. *)
Lemma live_month_valid rt mrec m :
  live_month parseInt rt d mrec = Normal m ->
  valid_month m = true ->
  exists o s,
    Scraped.rooms mrec = Some o /\
    foldM (live_step d mrec) rt scan_start = Normal s /\
    rooms m = scan_rooms s /\
    cheapest m = JS.Math_round (ch s) /\
    mostExpensive m = JS.Math_round (mx s) /\
    In (ch s) (raw_prices o rt) /\
    In (mx s) (raw_prices o rt).
Proof.
  unfold live_month. intros H Hv.
  destruct (foldM (live_step d mrec) rt scan_start) as [s|] eqn:Es; [|discriminate H].
  simpl in H. injection H as <-.
  unfold valid_month in Hv. cbn [cheapest] in Hv.
  destruct (JS.strict_eq (ch s) JS.Infinity) eqn:Ei; [discriminate Hv|].
  destruct (Scraped.rooms mrec) as [o|] eqn:Eo.
  - destruct (live_scan_extremes d mrec o rt _ _ Eo Es) as (C & M & _).
    cbn [ch mx scan_start] in C, M.
    assert (Hc : In (ch s) (raw_prices o rt)).
    { destruct (fold_min_attained (raw_prices o rt) JS.Infinity) as [E|E].
      - rewrite <- C in E. rewrite E in Ei. discriminate Ei.
      - now rewrite C. }
    exists o, s. cbn [rooms cheapest mostExpensive].
    repeat split; try assumption.
    rewrite M. apply fold_max_positive.
    + intros E. rewrite E in Hc. destruct Hc.
    + intros p Hp. apply raw_prices_In in Hp. destruct Hp as (k & _ & R).
      eapply raw_price_positive, R.
  - destruct rt as [|x rt].
    + simpl in Es. injection Es as <-. discriminate Ei.
    + rewrite live_scan_throws in Es; congruence.
Qed.

(** The room a raw price of the month is stored under. *)
Lemma live_room_of_raw rt mrec o s pp :
  Scraped.rooms mrec = Some o ->
  foldM (live_step d mrec) rt scan_start = Normal s ->
  ~ In "__proto__" rt ->
  In pp (raw_prices o rt) ->
  exists k r,
    In k rt /\ obj_get k (scan_rooms s) = Some r /\
    available r = true /\ price r = JS.Math_round pp.
Proof.
  intros Eo Es Hp Hin. apply raw_prices_In in Hin. destruct Hin as (k & Hk & R).
  destruct (live_scan_keys d mrec o rt _ _ Eo Es) as [_ G]; [constructor|].
  destruct (obj_get k (scan_rooms s)) as [r|] eqn:Eg.
  - exists k, r. split; [exact Hk|]. split; [exact Eg|].
    assert (S : scraped_room d o k r).
    { eapply live_scan_rooms; eauto using obj_get_In. simpl. tauto. }
    unfold scraped_room in S. rewrite R in S. subst r. split; reflexivity.
  - exfalso. apply (G k); auto. intros ->. contradiction.
Qed.

Lemma live_month_extremes_rooms rt mrec m :
  live_month parseInt rt d mrec = Normal m ->
  valid_month m = true ->
  ~ In "__proto__" rt ->
  (exists k r,
     In k rt /\ obj_get k (rooms m) = Some r /\
     available r = true /\ price r = cheapest m) /\
  (exists k r,
     In k rt /\ obj_get k (rooms m) = Some r /\
     available r = true /\ price r = mostExpensive m).
Proof.
  intros E Hv Hp.
  destruct (live_month_valid _ _ _ E Hv) as (o & s & Eo & Es & Er & Ec & Em & Hc & Hx).
  rewrite Er, Ec, Em. split; eapply live_room_of_raw; eauto.
Qed.

(** X1: in every month of a normalised grid, [cheapest] and
    [mostExpensive] are each the price of an available room of that month
    (no room type being named [__proto__]). *)
Theorem live_extremes_attained h ap g m :
  buildLiveMonths parseInt h ap d = Normal (Some g) ->
  ~ In "__proto__" (roomTypes g) ->
  In m (months g) ->
  (exists k r,
     In k (roomTypes g) /\ obj_get k (rooms m) = Some r /\
     available r = true /\ price r = cheapest m) /\
  (exists k r,
     In k (roomTypes g) /\ obj_get k (rooms m) = Some r /\
     available r = true /\ price r = mostExpensive m).
Proof.
  intros H Hp Hm.
  destruct (build_month_origin parseInt d h ap g m H Hm) as (mrec & _ & E & Hv).
  apply build_Some in H. destruct H as (_ & _ & _ & _ & R). rewrite R in *.
  apply (live_month_extremes_rooms _ _ _ E Hv Hp).
Qed.

(** X2: every month of a normalised grid has exactly one room entry per
    active room type: each room type of the grid can be looked up, and
    every key of [rooms] is a room type of the grid. *)
Theorem live_rooms_keys h ap g m :
  buildLiveMonths parseInt h ap d = Normal (Some g) ->
  ~ In "__proto__" (roomTypes g) ->
  In m (months g) ->
  (forall k, In k (roomTypes g) -> exists r, obj_get k (rooms m) = Some r) /\
  (forall k r, In (k, r) (rooms m) -> In k (roomTypes g)) /\
  NoDup (map fst (rooms m)).
Proof.
  intros H Hp Hm.
  destruct (build_month_origin parseInt d h ap g m H Hm) as (mrec & _ & E & Hv).
  apply build_Some in H. destruct H as (_ & _ & _ & _ & R). rewrite R in *.
  destruct (live_month_valid _ _ _ E Hv) as (o & s & Eo & Es & Er & _).
  rewrite Er.
  destruct (live_scan_keys d mrec o _ _ _ Eo Es) as [ND G]; [constructor|].
  destruct (live_scan_extremes d mrec o _ _ _ Eo Es) as (_ & _ & K).
  split; [|split; [|exact ND]].
  - intros k Hk. destruct (obj_get k (scan_rooms s)) as [r|] eqn:Eg; [eauto|].
    exfalso. apply (G k); auto. intros ->. contradiction.
  - intros k r Hin. destruct (K k r Hin) as [?|[]]. assumption.
Qed.


End LiveMonth.

(** X1, witness: the record that prices Standard Double and Suite. *)
Lemma live_extremes_attained_witness :
  exists g m k r,
    buildLiveMonths ParseIntRef.parseInt hotel_default_rooms "MAN" 7 = Normal (Some g) /\
    In m (months g) /\
    obj_get k (rooms m) = Some r /\ available r = true /\ price r = cheapest m.
Proof.
  eassert (B : buildLiveMonths ParseIntRef.parseInt hotel_default_rooms "MAN" 7
               = Normal (Some _)) by (vm_compute; reflexivity).
  match type of B with
  | _ = Normal (Some ?g) => eassert (Hm : In _ (months g)) by (left; reflexivity)
  end.
  assert (Hp : ~ In "__proto__" ROOM_TYPES) by (simpl; intuition discriminate).
  destruct (live_extremes_attained ParseIntRef.parseInt 7 hotel_default_rooms "MAN" _ _
              B Hp Hm) as [(k & r & _ & H2 & H3 & H4) _].
  do 4 eexists. split; [exact B|]. split; [exact Hm|]. repeat split; eassumption.
Defined.

(** X2, witness: Family Room, which the record does not price, still has
    its entry. *)
Lemma live_rooms_keys_witness :
  exists g m r,
    buildLiveMonths ParseIntRef.parseInt hotel_default_rooms "MAN" 7 = Normal (Some g) /\
    In m (months g) /\ obj_get "Family Room" (rooms m) = Some r.
Proof.
  eassert (B : buildLiveMonths ParseIntRef.parseInt hotel_default_rooms "MAN" 7
               = Normal (Some _)) by (vm_compute; reflexivity).
  match type of B with
  | _ = Normal (Some ?g) => eassert (Hm : In _ (months g)) by (left; reflexivity)
  end.
  assert (Hp : ~ In "__proto__" ROOM_TYPES) by (simpl; intuition discriminate).
  destruct (live_rooms_keys ParseIntRef.parseInt 7 hotel_default_rooms "MAN" _ _
              B Hp Hm) as (G & _ & _).
  destruct (G "Family Room") as [r Hr]; [simpl; tauto|].
  do 3 eexists. split; [exact B|]. split; [exact Hm | exact Hr].
Defined.


(* ================================================================= *)
(** ** The extremes of a synthetic month as Numbers *)

Lemma fold_min_number l : forall a, a <> JS.NaN -> fold_left min_step l a <> JS.NaN.
Proof.
  induction l as [|p l IH]; intros a Ha; simpl; [exact Ha|].
  apply IH, min_step_number, Ha.
Qed.

Lemma fold_max_number l : forall a, a <> JS.NaN -> fold_left max_step l a <> JS.NaN.
Proof.
  induction l as [|p l IH]; intros a Ha; simpl; [exact Ha|].
  apply IH, max_step_number, Ha.
Qed.

Lemma fold_min_all_nan l a : (forall p, In p l -> p = JS.NaN) -> fold_left min_step l a = a.
Proof.
  revert a. induction l as [|p l IH]; intros a H; simpl; [reflexivity|].
  rewrite (H p (or_introl eq_refl)). unfold min_step. rewrite lt_nan_l.
  apply IH. intros q Hq. apply H. now right.
Qed.

Lemma fold_max_all_nan l a : (forall p, In p l -> p = JS.NaN) -> fold_left max_step l a = a.
Proof.
  revert a. induction l as [|p l IH]; intros a H; simpl; [reflexivity|].
  rewrite (H p (or_introl eq_refl)). unfold max_step, JS.gt. rewrite lt_nan_r.
  apply IH. intros q Hq. apply H. now right.
Qed.

(** X5: whatever [Math.sin] returns, NaN included, [cheapest] and
    [mostExpensive] of a synthetic month are never NaN and
    [mostExpensive] is never negative; [cheapest] is at most
    [mostExpensive] as soon as one room price is a number, and when every
    price is NaN the month shows [cheapest] = Infinity and
    [mostExpensive] = 0. *)
Theorem demo_extremes_numbers Math_sin now hotel airport duration board m :
  In m (generateDemoData Math_sin now hotel airport duration board) ->
  cheapest m <> JS.NaN /\
  mostExpensive m <> JS.NaN /\
  JS.lt (mostExpensive m) (JS.of_Z 0) = false /\
  ((exists k r, In (k, r) (rooms m) /\ price r <> JS.NaN) ->
   JS.lt (mostExpensive m) (cheapest m) = false) /\
  ((forall k r, In (k, r) (rooms m) -> price r = JS.NaN) ->
   cheapest m = JS.Infinity /\ mostExpensive m = JS.of_Z 0).
Proof.
  intros Hm. apply grid_In in Hm. destruct Hm as (i & _ & ->).
  pose proof (entry_cheapest Math_sin now hotel airport duration board i) as C.
  pose proof (entry_mostExpensive Math_sin now hotel airport duration board i) as M.
  set (m := demo_month Math_sin now hotel airport duration board i) in *.
  assert (NI : JS.Infinity <> JS.NaN) by discriminate.
  assert (NZ : JS.of_Z 0 <> JS.NaN) by discriminate.
  split; [rewrite C; apply fold_min_number, NI|].
  split; [rewrite M; apply fold_max_number, NZ|].
  split; [rewrite M; apply (proj1 (fold_max_bounds _ _ NZ))|].
  split.
  - intros (k & r & Hin & Hn).
    assert (Hp : In (price r) (map price (Object_values (rooms m))))
      by (apply in_map; eapply Object_values_of, Hin).
    eapply not_lt_trans; [exact Hn | |].
    + rewrite C. apply fold_min_bounds; [exact NI | exact Hp].
    + rewrite M. apply fold_max_bounds; [exact NZ | exact Hp].
  - intros Hall.
    assert (N : forall p, In p (map price (Object_values (rooms m))) -> p = JS.NaN).
    { intros p Hp. apply in_map_iff in Hp. destruct Hp as (r & <- & Hr).
      apply Object_values_In in Hr. destruct Hr as [k Hk]. eapply Hall, Hk. }
    rewrite C, M. split; [apply fold_min_all_nan | apply fold_max_all_nan]; exact N.
Qed.

(** X5, witness: the April entry of the example grid, where every price
    is a number, and a grid generated with a sine that returns NaN. *)
Lemma demo_extremes_numbers_witness :
  (exists m,
     In m (generateDemoData SinRef.sin clock_2026_11_02 "Sunwing Alcudia Beach" "MAN" 7
             "Half Board") /\
     JS.lt (mostExpensive m) (cheapest m) = false) /\
  (exists m,
     In m (generateDemoData (fun _ => JS.NaN) clock_2026_11_02 "Sunwing Alcudia Beach" "MAN"
             7 "Half Board") /\
     cheapest m = JS.Infinity /\ mostExpensive m = JS.of_Z 0).
Proof.
  split.
  - exists (demo_month SinRef.sin clock_2026_11_02 "Sunwing Alcudia Beach" "MAN" 7
              "Half Board" 5).
    assert (H : In (demo_month SinRef.sin clock_2026_11_02 "Sunwing Alcudia Beach" "MAN" 7
                      "Half Board" 5)
                  (generateDemoData SinRef.sin clock_2026_11_02 "Sunwing Alcudia Beach" "MAN"
                      7 "Half Board")).
    { apply nth_error_In with (n := 5%nat). apply grid_nth. lia. }
    split; [exact H|].
    apply (demo_extremes_numbers _ _ _ _ _ _ _ H).
    exists "Suite".
    exists (demo_room SinRef.sin "Sunwing Alcudia Beach" "MAN" 7 "Half Board" 5 3 3 "Suite").
    split.
    + rewrite entry_rooms. unfold ROOM_TYPES. cbn [map combine seq fst snd].
      do 3 right. left. reflexivity.
    + vm_compute. discriminate.
  - exists (demo_month (fun _ => JS.NaN) clock_2026_11_02 "Sunwing Alcudia Beach" "MAN" 7
              "Half Board" 0).
    assert (H : In (demo_month (fun _ => JS.NaN) clock_2026_11_02 "Sunwing Alcudia Beach"
                      "MAN" 7 "Half Board" 0)
                  (generateDemoData (fun _ => JS.NaN) clock_2026_11_02
                      "Sunwing Alcudia Beach" "MAN" 7 "Half Board")).
    { apply nth_error_In with (n := 0%nat). apply grid_nth. lia. }
    split; [exact H|].
    apply (demo_extremes_numbers _ _ _ _ _ _ _ H).
    intros k r Hin. apply entry_rooms_In in Hin. destruct Hin as (ri & Hri & ->).
    do 5 (destruct ri as [|ri]; [injection Hri as <-; vm_compute; reflexivity|]).
    destruct ri; discriminate Hri.
Defined.

(* ================================================================= *)
(** ** The summary figures *)

Lemma positive_shape x :
  JS.gt x (JS.of_Z 0) = true ->
  (exists m e, x = S754_finite false m e) \/ x = JS.Infinity.
Proof.
  intros H.
  destruct x as [s|[|]| |[|] m e]; try (cbv in H; discriminate H); eauto.
Qed.

Lemma Math_min_positive a v :
  JS.gt a (JS.of_Z 0) = true -> JS.gt v (JS.of_Z 0) = true ->
  Math_min a v = min_step a v.
Proof.
  intros Ha Hv.
  destruct (positive_shape a Ha) as [(m & e & ->)| ->];
    destruct (positive_shape v Hv) as [(m' & e' & ->)| ->]; reflexivity.
Qed.

Lemma min_step_positive a v :
  JS.gt a (JS.of_Z 0) = true -> JS.gt v (JS.of_Z 0) = true ->
  JS.gt (min_step a v) (JS.of_Z 0) = true.
Proof. intros Ha Hv. unfold min_step. now destruct (JS.lt v a). Qed.

Lemma Math_min_spread_positive l : forall a,
  JS.gt a (JS.of_Z 0) = true ->
  (forall v, In v l -> JS.gt v (JS.of_Z 0) = true) ->
  fold_left Math_min l a = fold_left min_step l a.
Proof.
  induction l as [|v l IH]; intros a Ha Hl; simpl; [reflexivity|].
  assert (Hv : JS.gt v (JS.of_Z 0) = true) by (apply Hl; now left).
  rewrite Math_min_positive by assumption.
  apply IH; [now apply min_step_positive | intros; apply Hl; now right].
Qed.

Lemma filter_map_comm {A B} (f : A -> B) (p : B -> bool) l :
  filter p (map f l) = map f (filter (fun x => p (f x)) l).
Proof.
  induction l as [|x l IH]; simpl; [reflexivity|].
  destruct (p (f x)); simpl; now rewrite IH.
Qed.

Lemma best_cheapest_fold l : forall b,
  best_cheapest
    (fold_left (fun b m => if JS.lt (cheapest m) (best_cheapest b) then Some m else b) l b)
  = fold_left min_step (map cheapest l) (best_cheapest b).
Proof.
  induction l as [|m l IH]; intros b; simpl; [reflexivity|].
  rewrite IH. f_equal. unfold min_step.
  destruct (JS.lt (cheapest m) (best_cheapest b)); reflexivity.
Qed.

Lemma best_fold_origin l : forall b,
  match fold_left (fun b m => if JS.lt (cheapest m) (best_cheapest b) then Some m else b) l b
  with
  | Some m => (In m l /\ exists x, JS.lt (cheapest m) x = true) \/ b = Some m
  | None => b = None /\ forall m, In m l -> JS.lt (cheapest m) JS.Infinity = false
  end.
Proof.
  induction l as [|m l IH]; intros b; simpl.
  - destruct b; [auto | split; [reflexivity | intros m []]].
  - specialize (IH (if JS.lt (cheapest m) (best_cheapest b) then Some m else b)).
    destruct (fold_left _ l _) as [m'|].
    + destruct IH as [[H X]|H]; [left; split; [now right | exact X]|].
      destruct (JS.lt (cheapest m) (best_cheapest b)) eqn:L; [|now right].
      injection H as ->. left. split; [now left | now exists (best_cheapest b)].
    + destruct IH as [H IH].
      destruct b as [m0|]; [destruct (JS.lt _ _); discriminate H|].
      simpl in H. destruct (JS.lt (cheapest m) JS.Infinity) eqn:L; [discriminate H|].
      split; [reflexivity|]. intros x [<-|Hx]; [exact L | now apply IH].
Qed.

Lemma oMin_fold data :
  oMin data = fold_left min_step (map cheapest (filter valid_month data)) JS.Infinity.
Proof.
  unfold oMin, Math_min_spread. rewrite filter_map_comm.
  apply Math_min_spread_positive; [reflexivity|].
  intros v Hv. apply in_map_iff in Hv. destruct Hv as (m & <- & Hm).
  apply filter_In in Hm. apply Hm.
Qed.

Lemma oMin_lower data m :
  In m data -> valid_month m = true -> JS.lt (cheapest m) (oMin data) = false.
Proof.
  intros Hm Hv. rewrite oMin_fold. apply fold_min_bounds; [discriminate|].
  apply in_map, filter_In. auto.
Qed.

(** X6: the "Best Value" month and the "Cheapest" figure agree: [oMin] is
    the [cheapest] of the month [cM] picks, and no month with a positive
    [cheapest] is cheaper.  [cM] picks no month, and [oMin] is Infinity,
    exactly when every month with a positive [cheapest] has [cheapest] =
    Infinity (in particular when there is none). *)
Theorem kpi_best_value data :
  oMin data = best_cheapest (cM data) /\
  (forall m, In m data -> valid_month m = true ->
             JS.lt (cheapest m) (oMin data) = false) /\
  match cM data with
  | Some m => In m data /\ valid_month m = true /\ cheapest m <> JS.Infinity
  | None =>
      oMin data = JS.Infinity /\
      forall m, In m data -> valid_month m = true -> cheapest m = JS.Infinity
  end.
Proof.
  assert (B : oMin data = best_cheapest (cM data)).
  { rewrite oMin_fold. unfold cM. now rewrite best_cheapest_fold. }
  assert (Low : forall m, In m data -> valid_month m = true ->
                          JS.lt (cheapest m) (oMin data) = false)
    by (intros m; apply oMin_lower).
  split; [exact B|]. split; [exact Low|].
  unfold cM in *. pose proof (best_fold_origin (filter valid_month data) None) as O.
  destruct (fold_left _ (filter valid_month data) None) as [m|].
  - destruct O as [[H (x & X)]|H]; [|discriminate H].
    apply filter_In in H. destruct H as [H V].
    split; [exact H|]. split; [exact V|].
    intros C. rewrite C in X. destruct x as [| [] | |[]]; discriminate X.
  - destruct O as [_ O]. split; [exact B|].
    intros m Hm V.
    assert (L : JS.lt (cheapest m) JS.Infinity = false) by (apply O, filter_In; auto).
    destruct (positive_shape _ V) as [(p & e & Ep)|Ep]; [|exact Ep].
    rewrite Ep in L. discriminate L.
Qed.

(* ================================================================= *)
(** ** The rooms of a synthetic month *)

(** X4: every month of the synthetic grid has its five rooms under the
    names of [ROOM_TYPES], in that order; its availability text is "a/5"
    with a the number of available rooms, between 0 and 5. *)
Theorem demo_rooms_shape Math_sin now hotel airport duration board m :
  In m (generateDemoData Math_sin now hotel airport duration board) ->
  map fst (rooms m) = ROOM_TYPES /\
  availability m = (JS.string_of_Z (count_available (rooms m)) ++ "/5")%string /\
  0 <= count_available (rooms m) <= 5.
Proof.
  intros Hm. apply grid_In in Hm. destruct Hm as (i & _ & ->).
  split; [reflexivity|]. split; [reflexivity|].
  unfold count_available. rewrite entry_values. split; [lia|].
  apply (Nat2Z.inj_le _ 5). etransitivity; [apply filter_length_le|].
  rewrite length_map. reflexivity.
Qed.

(** X4, witness: the April entry of the example grid. *)
Lemma demo_rooms_shape_witness :
  exists m,
    In m (generateDemoData SinRef.sin clock_2026_11_02 "Sunwing Alcudia Beach" "MAN" 7
            "Half Board") /\
    map fst (rooms m) = ROOM_TYPES /\
    0 <= count_available (rooms m) <= 5.
Proof.
  exists (demo_month SinRef.sin clock_2026_11_02 "Sunwing Alcudia Beach" "MAN" 7
            "Half Board" 5).
  assert (H : In (demo_month SinRef.sin clock_2026_11_02 "Sunwing Alcudia Beach" "MAN" 7
                    "Half Board" 5)
                (generateDemoData SinRef.sin clock_2026_11_02 "Sunwing Alcudia Beach" "MAN"
                    7 "Half Board")).
  { apply nth_error_In with (n := 5%nat). apply grid_nth. lia. }
  split; [exact H|].
  destruct (demo_rooms_shape _ _ _ _ _ _ _ H) as (K & _ & C).
  split; [exact K | exact C].
Defined.

(* ================================================================= *)
(** ** The duration and board multipliers *)

(** X7: the duration multiplier never decreases when the stay gets
    longer, and it is one of the five values .5, .7, 1, 1.35 and 1.7. *)
Theorem dm_monotone d1 d2 :
  d1 <= d2 ->
  JS.lt (dm_of d2) (dm_of d1) = false /\
  In (dm_of d1) [JS.dec 5 10; JS.dec 7 10; JS.of_Z 1; JS.dec 135 100; JS.dec 17 10].
Proof.
  intros H. split.
  - unfold dm_of.
    destruct (Z.leb_spec d1 3), (Z.leb_spec d1 5), (Z.leb_spec d1 7), (Z.leb_spec d1 10);
      try lia;
      destruct (Z.leb_spec d2 3), (Z.leb_spec d2 5), (Z.leb_spec d2 7), (Z.leb_spec d2 10);
      try lia; vm_compute; reflexivity.
  - unfold dm_of. repeat (destruct (_ <=? _); [simpl; tauto|]). simpl; tauto.
Qed.

(** X7, witness: 3 nights against 14 nights. *)
Lemma dm_monotone_witness : JS.lt (dm_of 14) (dm_of 3) = false.
Proof. apply (dm_monotone 3 14). lia. Defined.

Lemma indexOf_BOARD_TYPES b :
  In (indexOf b BOARD_TYPES) [-1; 0; 1; 2; 3; 4] /\
  (~ In b BOARD_TYPES -> indexOf b BOARD_TYPES = -1).
Proof.
  unfold indexOf, BOARD_TYPES. cbn [indexOf_from Z.add].
  repeat match goal with
         | |- context [String.eqb ?x ?y] => destruct (String.eqb_spec x y)
         end; simpl; split; try tauto; intros N; exfalso; apply N; subst; simpl; tauto.
Qed.

(** X8: the board multiplier depends on the position of the board in
    [BOARD_TYPES] only; it is positive for every string, it grows
    strictly with the position, and a board that is not in the list
    (position -1) gets a multiplier below that of every listed board,
    not NaN. *)
Theorem bm_order b1 b2 :
  JS.gt (bm_of b1) (JS.of_Z 0) = true /\
  (indexOf b1 BOARD_TYPES < indexOf b2 BOARD_TYPES -> JS.lt (bm_of b1) (bm_of b2) = true) /\
  (~ In b1 BOARD_TYPES -> In b2 BOARD_TYPES -> JS.lt (bm_of b1) (bm_of b2) = true).
Proof.
  assert (P : JS.gt (bm_of b1) (JS.of_Z 0) = true).
  { unfold bm_of. destruct (indexOf_BOARD_TYPES b1) as [H _]. simpl in H.
    destruct H as [<-|[<-|[<-|[<-|[<-|[<-|[]]]]]]]; vm_compute; reflexivity. }
  assert (I : indexOf b1 BOARD_TYPES < indexOf b2 BOARD_TYPES ->
              JS.lt (bm_of b1) (bm_of b2) = true).
  { unfold bm_of.
    destruct (indexOf_BOARD_TYPES b1) as [H1 _], (indexOf_BOARD_TYPES b2) as [H2 _].
    simpl in H1, H2.
    destruct H1 as [<-|[<-|[<-|[<-|[<-|[<-|[]]]]]]];
      destruct H2 as [<-|[<-|[<-|[<-|[<-|[<-|[]]]]]]];
      intros L; try (exfalso; lia); vm_compute; reflexivity. }
  split; [exact P|]. split; [exact I|].
  intros N H. apply I. rewrite (proj2 (indexOf_BOARD_TYPES b1) N).
  simpl in H. destruct H as [<-|[<-|[<-|[<-|[<-|[]]]]]]; vm_compute; reflexivity.
Qed.

(** X8, witness: a board that is not offered against Self Catering. *)
Lemma bm_order_witness : JS.lt (bm_of "Breakfast Only") (bm_of "Self Catering") = true.
Proof.
  apply (bm_order "Breakfast Only" "Self Catering").
  - simpl. intuition discriminate.
  - simpl. tauto.
Defined.

(* ================================================================= *)
(** ** The star rating *)

(** X9: when the star rating renders it shows exactly five glyphs, the
    filled ones first; it throws a RangeError instead exactly when the
    count is negative or above five; a missing count shows five empty
    stars. *)
Theorem Stars_five count :
  let c := match count with Some c => c | None => 0 end in
  (forall glyphs, Stars count = Shown glyphs ->
     List.length glyphs = 5%nat /\
     glyphs = (repeat 9733%N (Z.to_nat c) ++ repeat 9734%N (5 - Z.to_nat c))%list) /\
  (Stars count = RangeError <-> c < 0 \/ 5 < c) /\
  Stars None = Shown (repeat 9734%N 5).
Proof.
  intros c. unfold Stars, String_repeat. fold c.
  remember (5 - c) as z eqn:Ez.
  destruct (Z.ltb_spec c 0) as [L|L], (Z.ltb_spec z 0) as [U|U].
  - split; [discriminate|]. split; [|reflexivity]. split; [lia | reflexivity].
  - split; [discriminate|]. split; [|reflexivity]. split; [lia | reflexivity].
  - split; [discriminate|]. split; [|reflexivity]. split; [lia | reflexivity].
  - split; [|split; [|reflexivity]].
    + intros glyphs E. injection E as <-.
      replace (5 - Z.to_nat c)%nat with (Z.to_nat z) by lia.
      split; [|reflexivity]. rewrite length_app, !repeat_length. lia.
    + split; [discriminate | lia].
Qed.

(** X9, witness: a four-star hotel. *)
Lemma Stars_five_witness :
  (exists glyphs, Stars (Some 4) = Shown glyphs /\ List.length glyphs = 5%nat) /\
  Stars (Some 6) = RangeError.
Proof.
  pose proof (Stars_five (Some 4)) as G. cbv zeta in G. destruct G as (G & _ & _).
  pose proof (Stars_five (Some 6)) as R. cbv zeta in R. destruct R as (_ & R & _).
  split.
  - eexists. split; [reflexivity|]. apply (G _ eq_refl).
  - apply R. right. lia.
Defined.

(** X6, witness: the grid of the record that prices Standard Double and
    Suite has a best-value month, and the "Cheapest" figure is its
    [cheapest]. *)
Lemma kpi_best_value_witness :
  exists g m,
    buildLiveMonths ParseIntRef.parseInt hotel_default_rooms "MAN" 7 = Normal (Some g) /\
    In m (months g) /\ oMin (months g) = cheapest m.
Proof.
  eassert (B : buildLiveMonths ParseIntRef.parseInt hotel_default_rooms "MAN" 7
               = Normal (Some _)) by (vm_compute; reflexivity).
  match type of B with
  | _ = Normal (Some ?g) =>
      pose proof (kpi_best_value (months g)) as (O & _ & K);
      eassert (E : cM (months g) = Some _) by (vm_compute; reflexivity)
  end.
  rewrite E in O, K. do 2 eexists. split; [exact B|]. split; [apply K | exact O].
Defined.

(* ================================================================= *)
(** ** The state after the start-up fetch *)

(** X10: the start-up fetch switches the dashboard to live mode and
    stores the document exactly when it ends with status "ok"; in every
    other case the mode and the stored document are left as they were,
    so it never sets the mode back to demo. *)
Theorem startup_mode_and_data st o :
  match Fetch.liveStatus (Fetch.startup st o) with
  | Fetch.ok =>
      Fetch.mode (Fetch.startup st o) = Fetch.live /\
      exists doc,
        o = Fetch.Response true (Fetch.Parsed doc) /\
        Fetch.has_hotels doc = true /\
        Fetch.liveData (Fetch.startup st o) = Some doc
  | _ =>
      Fetch.mode (Fetch.startup st o) = Fetch.mode st /\
      Fetch.liveData (Fetch.startup st o) = Fetch.liveData st
  end.
Proof.
  destruct o as [|[|] [|doc]]; try (split; reflexivity).
  unfold Fetch.startup, Fetch.on_response, Fetch.on_document, Fetch.has_hotels.
  cbn [negb bind].
  destruct (Fetch.get_hotels doc) as [hotels|e] eqn:G; [|split; reflexivity].
  cbn [bind]. destruct (Fetch.truthy (Fetch.opt_length hotels)) eqn:T.
  - cbn. split; [reflexivity|]. exists doc. rewrite G. auto.
  - split; reflexivity.
Qed.

(* ================================================================= *)
(** ** The highest price of the grid *)

Lemma Math_max_number x y :
  x <> JS.NaN -> y <> JS.NaN ->
  JS.Math_max x y <> JS.NaN /\
  JS.lt (JS.Math_max x y) x = false /\
  JS.lt (JS.Math_max x y) y = false /\
  (JS.Math_max x y = x \/ JS.Math_max x y = y).
Proof.
  intros Hx Hy.
  assert (G : forall r, r = (if JS.lt x y then y else x) ->
                        r <> JS.NaN /\ JS.lt r x = false /\ JS.lt r y = false /\
                        (r = x \/ r = y)).
  { intros r ->. destruct (JS.lt x y) eqn:L.
    - split; [exact Hy|]. split; [apply lt_asym, L|]. split; [apply lt_irrefl | now right].
    - split; [exact Hx|]. split; [apply lt_irrefl|]. split; [exact L | now left]. }
  destruct x as [sx|sx| |sx mx ex]; try contradiction;
    destruct y as [sy|sy| |sy my ey]; try contradiction;
    try (apply G; reflexivity).
  cbn [JS.Math_max]. split; [discriminate|]. split; [reflexivity|]. split; [reflexivity|].
  destruct sx, sy; simpl; auto.
Qed.

Lemma Math_max_nan_l y : JS.Math_max JS.NaN y = JS.NaN.
Proof. reflexivity. Qed.

Lemma Math_max_nan_r x : JS.Math_max x JS.NaN = JS.NaN.
Proof. destruct x; reflexivity. Qed.

Lemma fold_Math_max_nan l : fold_left JS.Math_max l JS.NaN = JS.NaN.
Proof. induction l as [|p l IH]; simpl; [reflexivity | exact IH]. Qed.

Lemma fold_Math_max_bounds l : forall a,
  a <> JS.NaN ->
  (forall p, In p l -> p <> JS.NaN) ->
  fold_left JS.Math_max l a <> JS.NaN /\
  JS.lt (fold_left JS.Math_max l a) a = false /\
  (forall p, In p l -> JS.lt (fold_left JS.Math_max l a) p = false) /\
  (fold_left JS.Math_max l a = a \/ In (fold_left JS.Math_max l a) l).
Proof.
  induction l as [|q l IH]; intros a Ha Hl; simpl.
  - split; [exact Ha|]. split; [apply lt_irrefl|]. split; [tauto | now left].
  - assert (Hq : q <> JS.NaN) by (apply Hl; now left).
    destruct (Math_max_number a q Ha Hq) as (N & La & Lq & O).
    destruct (IH (JS.Math_max a q) N (fun p Hp => Hl p (or_intror Hp))) as (N' & B & Bl & O').
    split; [exact N'|]. split; [|split].
    + eapply not_lt_trans; [exact N | exact La | exact B].
    + intros p [<-|Hp]; [|auto].
      eapply not_lt_trans; [exact N | exact Lq | exact B].
    + destruct O' as [E|E]; [|now right; right].
      rewrite E. destruct O as [->| ->]; [now left | right; now left].
Qed.

Lemma fold_Math_max_propagates l : forall a,
  In JS.NaN l -> fold_left JS.Math_max l a = JS.NaN.
Proof.
  induction l as [|q l IH]; intros a; simpl; [tauto|].
  intros [->|H]; [|now apply IH].
  rewrite Math_max_nan_r. apply fold_Math_max_nan.
Qed.

Lemma not_above_minus_infinity p :
  p <> JS.NaN -> JS.lt (S754_infinity true) p = false -> p = S754_infinity true.
Proof.
  intros Hp H. destruct p as [s|[|]| |s m e]; try discriminate H; try reflexivity.
  contradiction.
Qed.

Lemma oMax_bounds_numbers data :
  (forall m, In m data -> mostExpensive m <> JS.NaN) ->
  oMax data <> JS.NaN /\
  (forall m, In m data -> JS.lt (oMax data) (mostExpensive m) = false) /\
  (data <> [] -> exists m, In m data /\ oMax data = mostExpensive m).
Proof.
  intros Hn. unfold oMax, Math_max_spread.
  destruct (fold_Math_max_bounds (map mostExpensive data) (S754_infinity true))
    as (N & _ & B & O); [discriminate | |].
  { intros p Hp. apply in_map_iff in Hp. destruct Hp as (m & <- & Hm). now apply Hn. }
  split; [exact N|]. split; [intros m Hm; apply B, in_map, Hm|].
  intros Hd. destruct O as [E|E].
  - destruct data as [|m data]; [contradiction|]. exists m. split; [now left|].
    rewrite E. symmetry. apply not_above_minus_infinity; [apply Hn; now left|].
    rewrite <- E. apply B. now left.
  - apply in_map_iff in E. destruct E as (m & E & Hm). exists m. auto.
Qed.

(** X11: the "Highest" figure.  When no month has a NaN [mostExpensive],
    [oMax] is a number, no month's [mostExpensive] is above it and, the
    grid not being empty, it is the [mostExpensive] of one of the months.
    One NaN among the [mostExpensive] makes it NaN, and an empty grid
    gives -Infinity. *)
Theorem kpi_highest data :
  ((forall m, In m data -> mostExpensive m <> JS.NaN) ->
   oMax data <> JS.NaN /\
   (forall m, In m data -> JS.lt (oMax data) (mostExpensive m) = false) /\
   (data <> [] -> exists m, In m data /\ oMax data = mostExpensive m)) /\
  ((exists m, In m data /\ mostExpensive m = JS.NaN) -> oMax data = JS.NaN) /\
  oMax [] = S754_infinity true.
Proof.
  split; [apply oMax_bounds_numbers|]. split; [|reflexivity].
  intros (m & Hm & E). unfold oMax, Math_max_spread.
  apply fold_Math_max_propagates. rewrite <- E. apply in_map, Hm.
Qed.

(** X11, witness: the grid of the record that prices Standard Double and
    Suite. *)
Lemma kpi_highest_witness :
  exists g m,
    buildLiveMonths ParseIntRef.parseInt hotel_default_rooms "MAN" 7 = Normal (Some g) /\
    In m (months g) /\ oMax (months g) = mostExpensive m.
Proof.
  eassert (B : buildLiveMonths ParseIntRef.parseInt hotel_default_rooms "MAN" 7
               = Normal (Some _)) by (vm_compute; reflexivity).
  match type of B with
  | _ = Normal (Some ?g) =>
      destruct (kpi_highest (months g)) as (K & _ & _);
      destruct K as (_ & _ & (m & Hm & E))
  end.
  - intros m [<-|[]]. vm_compute. discriminate.
  - discriminate.
  - do 2 eexists. split; [exact B|]. split; [exact Hm | exact E].
Defined.

Section DemoRange.

Variable Math_sin : JS.Number -> JS.Number.
Variable now : Date.
Variables hotel airport : string.
Variable duration : Z.
Variable board : string.

Local Notation "'GRID'" := (generateDemoData Math_sin now hotel airport duration board).

Lemma demo_mostExpensive_number m : In m GRID -> mostExpensive m <> JS.NaN.
Proof.
  intros Hm. apply grid_In in Hm. destruct Hm as (i & _ & ->).
  rewrite entry_mostExpensive. apply fold_max_number. discriminate.
Qed.

Lemma demo_price_between m k r :
  In m GRID -> In (k, r) (rooms m) ->
  JS.lt (price r) (cheapest m) = false /\ JS.lt (mostExpensive m) (price r) = false.
Proof.
  intros Hm Hr. apply grid_In in Hm. destruct Hm as (i & _ & ->).
  assert (Hp : In (price r)
                 (map price
                    (Object_values
                       (rooms (demo_month Math_sin now hotel airport duration board i)))))
    by (apply in_map; eapply Object_values_of, Hr).
  rewrite entry_cheapest, entry_mostExpensive. split.
  - apply fold_min_bounds; [discriminate | exact Hp].
  - apply fold_max_bounds; [discriminate | exact Hp].
Qed.

(** X12: on a synthetic grid the summary figures bracket every room
    price: whatever [Math.sin] returns, "Highest" is a number, it is not
    negative and no room of any month costs more; no room of a month
    with a positive [cheapest] costs less than "Cheapest". *)
Theorem demo_kpi_bracket m k r :
  In m GRID -> In (k, r) (rooms m) ->
  oMax GRID <> JS.NaN /\
  JS.lt (oMax GRID) (JS.of_Z 0) = false /\
  JS.lt (oMax GRID) (price r) = false /\
  (valid_month m = true -> JS.lt (price r) (oMin GRID) = false).
Proof.
  intros Hm Hr.
  destruct (oMax_bounds_numbers GRID demo_mostExpensive_number) as (N & B & _).
  destruct (demo_price_between m k r Hm Hr) as [Lc Lx].
  pose proof (demo_mostExpensive_number m Hm) as Nm.
  split; [exact N|]. split; [|split].
  - eapply not_lt_trans; [exact Nm | | apply B, Hm].
    apply grid_In in Hm. destruct Hm as (i & _ & ->).
    assert (NZ : JS.of_Z 0 <> JS.NaN) by discriminate.
    rewrite entry_mostExpensive. apply (proj1 (fold_max_bounds _ _ NZ)).
  - eapply not_lt_trans; [exact Nm | exact Lx | apply B, Hm].
  - intros V. eapply not_lt_trans; [| apply oMin_lower; eassumption | exact Lc].
    intros E. unfold valid_month in V. rewrite E in V. discriminate V.
Qed.

End DemoRange.

(** X12, witness: the Suite of the April entry of the example grid. *)
Lemma demo_kpi_bracket_witness :
  exists m r,
    In m (generateDemoData SinRef.sin clock_2026_11_02 "Sunwing Alcudia Beach" "MAN" 7
            "Half Board") /\
    In ("Suite", r) (rooms m) /\
    JS.lt (oMax (generateDemoData SinRef.sin clock_2026_11_02 "Sunwing Alcudia Beach" "MAN" 7
                   "Half Board")) (price r) = false.
Proof.
  exists (demo_month SinRef.sin clock_2026_11_02 "Sunwing Alcudia Beach" "MAN" 7
            "Half Board" 5).
  exists (demo_room SinRef.sin "Sunwing Alcudia Beach" "MAN" 7 "Half Board" 5 3 3 "Suite").
  assert (H : In (demo_month SinRef.sin clock_2026_11_02 "Sunwing Alcudia Beach" "MAN" 7
                    "Half Board" 5)
                (generateDemoData SinRef.sin clock_2026_11_02 "Sunwing Alcudia Beach" "MAN"
                    7 "Half Board")).
  { apply nth_error_In with (n := 5%nat). apply grid_nth. lia. }
  assert (R : In ("Suite",
                  demo_room SinRef.sin "Sunwing Alcudia Beach" "MAN" 7 "Half Board" 5 3 3
                    "Suite")
                (rooms (demo_month SinRef.sin clock_2026_11_02 "Sunwing Alcudia Beach" "MAN"
                          7 "Half Board" 5))).
  { rewrite entry_rooms. unfold ROOM_TYPES. cbn [map combine seq fst snd].
    do 3 right. left. reflexivity. }
  split; [exact H|]. split; [exact R|].
  destruct (demo_kpi_bracket _ _ _ _ _ _ _ _ _ H R) as (_ & _ & B & _). exact B.
Defined.

(* ================================================================= *)
(** ** The price chart *)

Lemma chart_prices_numbers data sel p :
  In p (PriceChart.prices data sel) -> p <> JS.NaN.
Proof.
  unfold PriceChart.prices. intros H. apply in_map_iff in H. destruct H as (m & <- & _).
  destruct (obj_get sel (rooms m)) as [r|]; [|discriminate].
  destruct (JS.truthy (price r)) eqn:T; [|discriminate].
  intros E. rewrite E in T. discriminate T.
Qed.

Lemma filter_nothing {A} (f : A -> bool) l :
  (forall x, In x l -> f x = false) -> filter f l = [].
Proof.
  induction l as [|x l IH]; intros H; simpl; [reflexivity|].
  rewrite (H x (or_introl eq_refl)). apply IH. intros y Hy. apply H. now right.
Qed.

Lemma chart_without_scale ps :
  (forall p, In p ps -> p <> JS.NaN) ->
  (forall p, In p ps -> JS.gt p (JS.of_Z 0) = false) ->
  PriceChart.min ps = JS.Infinity /\
  PriceChart.range ps = S754_infinity true /\
  forall p, PriceChart.gy ps p = JS.NaN.
Proof.
  intros Hn L.
  assert (Emin : PriceChart.min ps = JS.Infinity).
  { unfold PriceChart.min. now rewrite (filter_nothing _ _ L). }
  assert (Erange : PriceChart.range ps = S754_infinity true).
  { unfold PriceChart.range. rewrite Emin. unfold PriceChart.max, Math_max_spread.
    destruct (fold_Math_max_bounds ps (S754_infinity true))
      as (N & _ & _ & O); [discriminate | exact Hn |].
    assert (G : JS.gt (fold_left JS.Math_max ps (S754_infinity true)) (JS.of_Z 0) = false).
    { destruct O as [-> | O]; [reflexivity | now apply L]. }
    destruct (fold_left JS.Math_max ps (S754_infinity true))
      as [s|[|]| |s m e]; try reflexivity; [discriminate G | contradiction]. }
  split; [exact Emin|]. split; [exact Erange|].
  intros p. unfold PriceChart.gy. rewrite Emin, Erange.
  destruct p as [s|[|]| |s m e]; reflexivity.
Qed.



(** X14: with a single month in the grid the horizontal coordinate
    [gx(i)] divides by zero: it is NaN for the only point, [i] = 0, and
    it is not a finite number for any [i]. *)
Theorem chart_single_month data sel i :
  List.length data = 1%nat ->
  PriceChart.gx (PriceChart.prices data sel) 0 = JS.NaN /\
  isFinite (PriceChart.gx (PriceChart.prices data sel) i) = false.
Proof.
  intros H. unfold PriceChart.gx, PriceChart.prices. rewrite length_map, H.
  change (JS.sub (JS.of_Z (Z.of_nat 1)) (JS.of_Z 1)) with (S754_zero false).
  split; [reflexivity|].
  destruct (JS.of_Z i) as [s|s| |s m e]; try reflexivity; destruct s; reflexivity.
Qed.

(** X14, witness: the one-month grid of the record that prices Standard
    Double and Suite. *)
Lemma chart_single_month_witness :
  exists g,
    buildLiveMonths ParseIntRef.parseInt hotel_default_rooms "MAN" 7 = Normal (Some g) /\
    PriceChart.gx (PriceChart.prices (months g) "Suite") 0 = JS.NaN.
Proof.
  eassert (B : buildLiveMonths ParseIntRef.parseInt hotel_default_rooms "MAN" 7
               = Normal (Some _)) by (vm_compute; reflexivity).
  eexists. split; [exact B|].
  apply (chart_single_month _ "Suite" 0). reflexivity.
Defined.

(* ================================================================= *)
(** ** Loading a hotel *)

Lemma includes_In x a : includes x a = true <-> In x a.
Proof.
  unfold includes. rewrite existsb_exists. split.
  - intros (y & Hy & E). apply String.eqb_eq in E. now subst.
  - intros H. exists x. split; [exact H | apply String.eqb_refl].
Qed.

(** X15: what [load] leaves behind.  It never changes the mode and always
    sets a non-empty grid and a non-empty list of room types: either the
    synthetic grid with [ROOM_TYPES] and the selected room untouched, or,
    in live mode, the normalised grid with its room types, and then the
    selected room is one of them (kept if the grid lists it, replaced by
    the first room type otherwise).  It throws only in live mode, when
    the normaliser throws. *)
Theorem load_outcome Math_sin parseInt now st h ap d b :
  match load Math_sin parseInt now st h ap d b with
  | Normal st' =>
      view_mode st' = view_mode st /\
      (exists l, data st' = Some l /\ l <> []) /\
      rTypes st' <> [] /\
      ((data st' = Some (generateDemoData Math_sin now (name h) ap d b) /\
        rTypes st' = ROOM_TYPES /\ selRoom st' = selRoom st) \/
       (view_mode st = Fetch.live /\
        exists g,
          buildLiveMonths parseInt (record h) ap d = Normal (Some g) /\
          data st' = Some (months g) /\ rTypes st' = roomTypes g /\
          In (selRoom st') (roomTypes g) /\
          selRoom st' = (if includes (selRoom st) (roomTypes g) then selRoom st
                         else nth 0 (roomTypes g) EmptyString)))
  | Throw e =>
      view_mode st = Fetch.live /\ buildLiveMonths parseInt (record h) ap d = Throw e
  end.
Proof.
  assert (D : forall st',
             st' = load_demo Math_sin now st h ap d b ->
             view_mode st' = view_mode st /\
             (exists l, data st' = Some l /\ l <> []) /\
             rTypes st' <> [] /\
             ((data st' = Some (generateDemoData Math_sin now (name h) ap d b) /\
               rTypes st' = ROOM_TYPES /\ selRoom st' = selRoom st) \/
              (view_mode st = Fetch.live /\
               exists g,
                 buildLiveMonths parseInt (record h) ap d = Normal (Some g) /\
                 data st' = Some (months g) /\ rTypes st' = roomTypes g /\
                 In (selRoom st') (roomTypes g) /\
                 selRoom st' = (if includes (selRoom st) (roomTypes g) then selRoom st
                                else nth 0 (roomTypes g) EmptyString)))).
  { intros st' ->. unfold load_demo. cbn [view_mode data rTypes selRoom].
    split; [reflexivity|]. split; [|split; [discriminate | left; auto]].
    eexists. split; [reflexivity|]. intros E.
    pose proof (grid_length Math_sin now (name h) ap d b) as L.
    rewrite E in L. discriminate L. }
  unfold load.
  destruct (view_mode st) eqn:M; [now apply D|].
  destruct (Scraped._months (record h)) as [ms|]; [|now apply D].
  destruct (buildLiveMonths parseInt (record h) ap d) as [[g|]|e] eqn:B;
    cbn [bind]; [| now apply D | auto].
  cbn [view_mode data rTypes selRoom].
  destruct (build_Some _ _ _ _ _ B) as (ms' & _ & _ & Hm & Hr).
  split; [reflexivity|]. split; [eauto|].
  destruct (roomTypes g) as [|first rest] eqn:R.
  { exfalso. rewrite (build_null_room_types parseInt d (record h) ap) in B by congruence.
    discriminate B. }
  split; [discriminate|]. right. split; [reflexivity|].
  exists g. rewrite R. split; [reflexivity|]. split; [reflexivity|]. split; [reflexivity|].
  destruct (includes (selRoom st) (first :: rest)) eqn:I; cbn [negb nth].
  - split; [now apply includes_In | reflexivity].
  - split; [now left | reflexivity].
Qed.

Lemma obj_get_absent {A} k (o : Obj A) : ~ In k (map fst o) -> obj_get k o = None.
Proof.
  induction o as [|[k' v] o IH]; simpl; [reflexivity|]. intros N.
  destruct (String.eqb_spec k k') as [->|_]; [exfalso; auto | apply IH; auto].
Qed.

(** X16: [load] keeps the selected room when it shows the synthetic grid
    (demo mode, a hotel without scraped months, or a normaliser result of
    null), whether or not [ROOM_TYPES] lists it.  A selected room outside
    [ROOM_TYPES] is then not among the room types shown, no month of the
    grid has it, and the chart's [gy] is NaN for every price. *)
Theorem load_fallback_room Math_sin parseInt now st h ap d b :
  view_mode st = Fetch.demo \/ Scraped._months (record h) = None \/
  buildLiveMonths parseInt (record h) ap d = Normal None ->
  ~ In (selRoom st) ROOM_TYPES ->
  exists st' grid,
    load Math_sin parseInt now st h ap d b = Normal st' /\
    selRoom st' = selRoom st /\
    data st' = Some grid /\
    ~ In (selRoom st') (rTypes st') /\
    (forall m, In m grid -> obj_get (selRoom st') (rooms m) = None) /\
    (forall p, PriceChart.gy (PriceChart.prices grid (selRoom st')) p = JS.NaN).
Proof.
  intros C N.
  exists (load_demo Math_sin now st h ap d b), (generateDemoData Math_sin now (name h) ap d b).
  assert (G : forall m, In m (generateDemoData Math_sin now (name h) ap d b) ->
                        obj_get (selRoom st) (rooms m) = None).
  { intros m Hm. apply grid_In in Hm. destruct Hm as (i & _ & ->).
    apply obj_get_absent. exact N. }
  split; [|split; [reflexivity|split; [reflexivity|split; [exact N|split; [exact G|]]]]].
  - unfold load. destruct C as [-> | [-> | ->]]; [reflexivity | |].
    + destruct (view_mode st); reflexivity.
    + destruct (view_mode st); [reflexivity|].
      destruct (Scraped._months (record h)); reflexivity.
  - cbn [selRoom load_demo]. apply chart_without_scale; [apply chart_prices_numbers|].
    unfold PriceChart.prices. intros p Hp. apply in_map_iff in Hp.
    destruct Hp as (m & <- & Hm). now rewrite (G m Hm).
Qed.

(** X16, witness: the room type Penthouse selected, then a sample hotel
    loaded. *)
Lemma load_fallback_room_witness :
  exists st',
    load SinRef.sin ParseIntRef.parseInt clock_2026_11_02
      {| view_mode := Fetch.live; selRoom := "Penthouse"; data := None;
         rTypes := ["Penthouse"] |}
      {| name := "Sunwing Alcudia Beach"; record := hotel_no_months |}
      "MAN" 7 "Half Board" = Normal st' /\
    ~ In (selRoom st') (rTypes st').
Proof.
  destruct (load_fallback_room SinRef.sin ParseIntRef.parseInt clock_2026_11_02
              {| view_mode := Fetch.live; selRoom := "Penthouse"; data := None;
                 rTypes := ["Penthouse"] |}
              {| name := "Sunwing Alcudia Beach"; record := hotel_no_months |}
              "MAN" 7 "Half Board") as (st' & grid & L & _ & _ & R & _).
  - right. left. reflexivity.
  - simpl. intuition discriminate.
  - exists st'. split; [exact L | exact R].
Defined.

(* ================================================================= *)
(** ** Scraped prices and the length of the stay *)

Lemma obj_put_map {A B} (f : A -> B) k v (o : Obj A) :
  obj_put k (f v) (obj_map f o) = obj_map f (obj_put k v o).
Proof.
  induction o as [|[k' v'] o IH]; simpl; [reflexivity|].
  destruct (String.eqb k k'); simpl; [reflexivity | now rewrite IH].
Qed.

Lemma obj_set_map {A B} (f : A -> B) k v (o : Obj A) :
  obj_set k (f v) (obj_map f o) = obj_map f (obj_set k v o).
Proof.
  unfold obj_set. destruct (String.eqb k "__proto__"); [reflexivity | apply obj_put_map].
Qed.

Lemma insert_by_index_map {A B} (f : A -> B) n v (l : list (N * A)) :
  insert_by_index n (f v) (map (fun nv => (fst nv, f (snd nv))) l) =
  map (fun nv => (fst nv, f (snd nv))) (insert_by_index n v l).
Proof.
  induction l as [|[n' v'] l IH]; simpl; [reflexivity|].
  destruct (n <? n')%N; simpl; [reflexivity | now rewrite IH].
Qed.

Lemma Object_values_map {A B} (f : A -> B) (o : Obj A) :
  Object_values (obj_map f o) = map f (Object_values o).
Proof.
  unfold Object_values. rewrite map_app, map_map. f_equal.
  - assert (E : indexed_props (obj_map f o) =
                map (fun nv => (fst nv, f (snd nv))) (indexed_props o)).
    { induction o as [|[k v] o IH]; simpl; [reflexivity|].
      destruct (array_index k); [|exact IH]. rewrite IH. apply insert_by_index_map. }
    rewrite E, map_map. reflexivity.
  - induction o as [|[k v] o IH]; simpl; [reflexivity|].
    destruct (array_index k); simpl; [exact IH | now rewrite IH].
Qed.

Lemma filter_map_same {A} (f : A -> A) (p : A -> bool) l :
  (forall x, p (f x) = p x) -> filter p (map f l) = map f (filter p l).
Proof.
  intros H. induction l as [|x l IH]; simpl; [reflexivity|].
  rewrite H. destruct (p x); simpl; now rewrite IH.
Qed.

Lemma sum_prices_map l : sum_prices (map no_perNight l) = sum_prices l.
Proof.
  unfold sum_prices. generalize (JS.of_Z 0).
  induction l as [|r l IH]; intros a; simpl; [reflexivity | apply IH].
Qed.

(** The figures of a month that are computed from its rooms read prices
    and availability only. *)
Lemma rooms_figures o o' :
  obj_map no_perNight o = obj_map no_perNight o' ->
  sum_prices (filter priced (Object_values o)) =
    sum_prices (filter priced (Object_values o')) /\
  List.length (filter priced (Object_values o)) =
    List.length (filter priced (Object_values o')) /\
  count_available o = count_available o'.
Proof.
  intros E. apply (f_equal Object_values) in E. rewrite !Object_values_map in E.
  assert (P : forall l, sum_prices (filter priced l) =
                        sum_prices (filter priced (map no_perNight l))).
  { intros l. rewrite filter_map_same by reflexivity. now rewrite sum_prices_map. }
  assert (Q : forall l, List.length (filter priced l) =
                        List.length (filter priced (map no_perNight l))).
  { intros l. rewrite filter_map_same by reflexivity. now rewrite length_map. }
  assert (R : forall l, List.length (filter available l) =
                        List.length (filter available (map no_perNight l))).
  { intros l. rewrite filter_map_same by reflexivity. now rewrite length_map. }
  unfold count_available.
  rewrite (P (Object_values o)), (Q (Object_values o)), (R (Object_values o)), E,
    <- P, <- Q, <- R.
  auto.
Qed.

Section StayLength.

Variable parseInt : string -> JS.Number.
Variables d d' : Z.

Lemma live_step_same m s s' r :
  same_scan s s' -> same_outcome same_scan (live_step d m s r) (live_step d' m s' r).
Proof.
  intros (Er & Ec & Em). unfold live_step.
  destruct (Scraped.rooms m) as [o|]; [|reflexivity].
  destruct (raw_price o r) as [pp|]; cbn [same_outcome]; unfold same_scan;
    cbn [scan_rooms ch mx]; rewrite <- !obj_set_map, Er, Ec, Em; auto.
Qed.

Lemma live_scan_same m rt : forall s s',
  same_scan s s' ->
  same_outcome same_scan (foldM (live_step d m) rt s) (foldM (live_step d' m) rt s').
Proof.
  induction rt as [|r rt IH]; intros s s' H; [exact H|].
  cbn [foldM]. pose proof (live_step_same m s s' r H) as S.
  destruct (live_step d m s r) as [t|e], (live_step d' m s' r) as [t'|e'];
    cbn [bind same_outcome] in *; try contradiction; [now apply IH | exact S].
Qed.

Lemma live_month_same rt m :
  same_outcome (fun x x' => without_perNight x = without_perNight x')
    (live_month parseInt rt d m) (live_month parseInt rt d' m).
Proof.
  unfold live_month.
  assert (S0 : same_scan scan_start scan_start) by (repeat split).
  pose proof (live_scan_same m rt _ _ S0) as S.
  destruct (foldM (live_step d m) rt scan_start) as [s|e],
           (foldM (live_step d' m) rt scan_start) as [s'|e'];
    cbn [bind same_outcome] in *; try contradiction; [|exact S].
  destruct S as (Er & Ec & Em). destruct (rooms_figures _ _ Er) as (P & Q & R).
  unfold without_perNight.
  cbn [month year rooms cheapest mostExpensive avgPrice availability].
  rewrite Er, Ec, Em, P, Q, R. reflexivity.
Qed.

Lemma live_months_same rt ms :
  same_outcome same_months
    (mapM (live_month parseInt rt d) ms) (mapM (live_month parseInt rt d') ms).
Proof.
  induction ms as [|m ms IH]; [reflexivity|].
  cbn [mapM]. pose proof (live_month_same rt m) as S.
  destruct (live_month parseInt rt d m) as [x|e], (live_month parseInt rt d' m) as [x'|e'];
    cbn [bind same_outcome] in *; try contradiction; [|exact S].
  destruct (mapM (live_month parseInt rt d) ms) as [l|e],
           (mapM (live_month parseInt rt d') ms) as [l'|e'];
    cbn [bind same_outcome] in *; try contradiction; [|exact IH].
  unfold same_months in *. cbn [map]. now rewrite S, IH.
Qed.

Lemma valid_months_same l : forall l',
  same_months l l' -> same_months (filter valid_month l) (filter valid_month l').
Proof.
  unfold same_months.
  induction l as [|m l IH]; intros [|m' l'] H; try discriminate H; [reflexivity|].
  cbn [map] in H.
  remember (without_perNight m) as a eqn:Ea. remember (without_perNight m') as a' eqn:Ea'.
  injection H as Hm Hl. subst a a'.
  assert (V : valid_month m = valid_month m').
  { unfold valid_month. apply (f_equal cheapest) in Hm. cbn [without_perNight cheapest] in Hm.
    now rewrite Hm. }
  cbn [filter]. rewrite <- V. destruct (valid_month m); cbn [map]; [f_equal|]; auto.
Qed.

(** X17: the scraped prices do not depend on the airport or on the number
    of nights chosen: for two choices the normaliser ends the same way
    (null, the same exception, or a grid) and the two grids have the same
    room types and the same months, room prices, availability and
    summary figures; only [perNight] may differ. *)
Theorem live_prices_ignore_stay h ap ap' :
  same_outcome same_grid
    (buildLiveMonths parseInt h ap d) (buildLiveMonths parseInt h ap' d').
Proof.
  unfold buildLiveMonths.
  destruct (Scraped._months h) as [[|m ms]|]; try exact I.
  destruct (match Scraped._roomTypes h with Some l => l | None => ROOM_TYPES end)
    as [|r rt]; [exact I|].
  pose proof (live_months_same (r :: rt) (m :: ms)) as S.
  destruct (mapM (live_month parseInt (r :: rt) d) (m :: ms)) as [l|e],
           (mapM (live_month parseInt (r :: rt) d') (m :: ms)) as [l'|e'];
    cbn [bind same_outcome] in *; try contradiction; [|exact S].
  apply valid_months_same in S. unfold same_months in S.
  destruct (filter valid_month l) as [|v vs], (filter valid_month l') as [|v' vs'];
    try discriminate S; [exact I|].
  cbn [same_outcome same_grid months roomTypes]. split; [reflexivity | exact S].
Qed.

End StayLength.

(* ================================================================= *)
(** ** The summary figures of a scraped grid *)

Lemma nan_or_numbers l : In JS.NaN l \/ forall p, In p l -> p <> JS.NaN.
Proof.
  induction l as [|q l [IH|IH]]; [right; intros p [] | left; now right |].
  destruct q as [s|s| |s m e]; try (right; intros p [<-|Hp]; [discriminate | now apply IH]).
  left. now left.
Qed.

Lemma oMax_attained data :
  data <> [] -> exists m, In m data /\ oMax data = mostExpensive m.
Proof.
  intros Hd. destruct (nan_or_numbers (map mostExpensive data)) as [N|N].
  - pose proof N as N'. apply in_map_iff in N'. destruct N' as (m & E & Hm).
    exists m. split; [exact Hm|]. rewrite E. unfold oMax, Math_max_spread.
    now apply fold_Math_max_propagates.
  - apply oMax_bounds_numbers; [|exact Hd].
    intros m Hm. apply N, in_map, Hm.
Qed.

Lemma oMin_attained data :
  (exists m, In m data /\ valid_month m = true) ->
  exists m, In m data /\ valid_month m = true /\ oMin data = cheapest m.
Proof.
  intros (m0 & H0 & V0).
  destruct (fold_min_attained (map cheapest (filter valid_month data)) JS.Infinity) as [E|E];
    rewrite <- oMin_fold in E.
  - exists m0. split; [exact H0|]. split; [exact V0|].
    pose proof (oMin_lower data m0 H0 V0) as L. rewrite E in *.
    destruct (positive_shape _ V0) as [(p & e & Ep)|Ep]; [|now rewrite Ep].
    rewrite Ep in L. discriminate L.
  - apply in_map_iff in E. destruct E as (m & E & Hm). apply filter_In in Hm.
    exists m. split; [apply Hm|]. split; [apply Hm | now symmetry].
Qed.

(** X18: in a normalised grid the "Cheapest" and the "Highest" figures
    are each the price of an available room of some month of the grid
    (no room type being named [__proto__]). *)
Theorem live_kpi_attained parseInt d h ap g :
  buildLiveMonths parseInt h ap d = Normal (Some g) ->
  ~ In "__proto__" (roomTypes g) ->
  (exists m k r,
     In m (months g) /\ In k (roomTypes g) /\ obj_get k (rooms m) = Some r /\
     available r = true /\ price r = oMin (months g)) /\
  (exists m k r,
     In m (months g) /\ In k (roomTypes g) /\ obj_get k (rooms m) = Some r /\
     available r = true /\ price r = oMax (months g)).
Proof.
  intros B Hp.
  destruct (build_Some _ _ _ _ _ B) as (ms' & _ & Ef & Hne & R).
  assert (V : forall m, In m (months g) -> valid_month m = true).
  { intros m Hm. rewrite Ef in Hm. apply filter_In in Hm. apply Hm. }
  assert (X : forall m, In m (months g) ->
              (exists k r,
                 In k (roomTypes g) /\ obj_get k (rooms m) = Some r /\
                 available r = true /\ price r = cheapest m) /\
              (exists k r,
                 In k (roomTypes g) /\ obj_get k (rooms m) = Some r /\
                 available r = true /\ price r = mostExpensive m)).
  { intros m Hm.
    destruct (build_month_origin parseInt d h ap g m B Hm) as (mrec & _ & E & Hv).
    rewrite R in *. apply (live_month_extremes_rooms parseInt d _ _ _ E Hv Hp). }
  split.
  - destruct (oMin_attained (months g)) as (m & Hm & _ & E).
    { destruct (months g) as [|m0 l]; [contradiction|]. exists m0. split; [now left|].
      apply V. now left. }
    destruct (X m Hm) as [(k & r & Hk & Hg & Ha & Hc) _].
    exists m, k, r. rewrite E. auto.
  - destruct (oMax_attained (months g) Hne) as (m & Hm & E).
    destruct (X m Hm) as [_ (k & r & Hk & Hg & Ha & Hc)].
    exists m, k, r. rewrite E. auto.
Qed.

(** X18, witness: the record that prices Standard Double and Suite. *)
Lemma live_kpi_attained_witness :
  exists g m k r,
    buildLiveMonths ParseIntRef.parseInt hotel_default_rooms "MAN" 7 = Normal (Some g) /\
    In m (months g) /\ obj_get k (rooms m) = Some r /\
    available r = true /\ price r = oMin (months g).
Proof.
  eassert (B : buildLiveMonths ParseIntRef.parseInt hotel_default_rooms "MAN" 7
               = Normal (Some _)) by (vm_compute; reflexivity).
  assert (Hp : ~ In "__proto__" ROOM_TYPES) by (simpl; intuition discriminate).
  destruct (live_kpi_attained ParseIntRef.parseInt 7 hotel_default_rooms "MAN" _ B Hp)
    as [(m & k & r & H1 & _ & H2 & H3 & H4) _].
  do 4 eexists. split; [exact B|]. repeat split; eassumption.
Defined.

(* ================================================================= *)
(** ** The label of a scraped month *)



Section LiveLabel.

Variable parseInt : string -> JS.Number.
Variable d : Z.



End LiveLabel.


(* ================================================================= *)
(** ** What the synthetic grid depends on *)

Lemma string_app_assoc (a b c : string) : ((a ++ b) ++ c = a ++ (b ++ c))%string.
Proof. induction a as [|x a IH]; simpl; [reflexivity | now rewrite IH]. Qed.

(** X20: the hotel name and the airport code enter the synthetic grid
    through the seed only: two calls with the same duration and board
    whose seeds agree return the same grid.  The seed reads the two
    strings joined, so moving characters from the end of the name to the
    front of the code changes nothing. *)
Theorem demo_grid_by_seed Math_sin now hotel airport hotel' airport' duration board :
  (seed_of hotel airport duration board = seed_of hotel' airport' duration board ->
   generateDemoData Math_sin now hotel airport duration board =
   generateDemoData Math_sin now hotel' airport' duration board) /\
  (forall x,
     seed_of (hotel ++ x) airport duration board =
     seed_of hotel (x ++ airport) duration board).
Proof.
  split.
  - intros E. rewrite !grid_map. apply map_ext. intros i.
    unfold demo_month, forEach_i, demo_step, demo_room. rewrite E. reflexivity.
  - intros x. unfold seed_of. rewrite !string_app_assoc. reflexivity.
Qed.

(** X20, witness: two hotel names that are anagrams of each other. *)
Lemma demo_grid_by_seed_witness :
  generateDemoData SinRef.sin clock_2026_11_02 "Sunwing Alcudia Beach" "MAN" 7 "Half Board" =
  generateDemoData SinRef.sin clock_2026_11_02 "Sunwing Alcudia Baech" "MAN" 7 "Half Board".
Proof.
  apply (demo_grid_by_seed SinRef.sin clock_2026_11_02 "Sunwing Alcudia Beach" "MAN"
           "Sunwing Alcudia Baech" "MAN" 7 "Half Board").
  vm_compute. reflexivity.
Defined.

(* ================================================================= *)
(** ** From the start-up fetch to the grid shown *)

Lemma startup_none_mode st o :
  Fetch.liveStatus (Fetch.startup st o) = Fetch.none ->
  Fetch.mode (Fetch.startup st o) = Fetch.mode st.
Proof.
  destruct o as [|[|] [|doc]]; try reflexivity.
  unfold Fetch.startup, Fetch.on_response, Fetch.on_document. cbn [negb bind].
  destruct (Fetch.get_hotels doc) as [hotels|e]; [|reflexivity].
  cbn [bind]. destruct (Fetch.truthy (Fetch.opt_length hotels)); [discriminate | reflexivity].
Qed.

(** X21: when the start-up fetch, run from the initial state, ends with
    status "none", a [load] made in the mode it leaves shows the
    synthetic grid for every hotel, with or without a scraped record,
    and cannot throw: [buildLiveMonths] is not consulted. *)
Theorem no_scraped_data_shows_demo Math_sin parseInt now o st h ap d b :
  Fetch.liveStatus (Fetch.startup Fetch.initial o) = Fetch.none ->
  view_mode st = Fetch.mode (Fetch.startup Fetch.initial o) ->
  load Math_sin parseInt now st h ap d b = Normal (load_demo Math_sin now st h ap d b) /\
  data (load_demo Math_sin now st h ap d b) =
    Some (generateDemoData Math_sin now (name h) ap d b).
Proof.
  intros N M. rewrite (startup_none_mode _ _ N) in M. cbn [Fetch.mode Fetch.initial] in M.
  split; [|reflexivity]. unfold load. now rewrite M.
Qed.

(** X21, witness: the fetch is rejected, then a hotel with a scraped
    record is loaded. *)
Lemma no_scraped_data_shows_demo_witness :
  exists st',
    load SinRef.sin ParseIntRef.parseInt clock_2026_11_02
      {| view_mode := Fetch.mode (Fetch.startup Fetch.initial Fetch.Rejected);
         selRoom := "Standard Double"; data := None; rTypes := ROOM_TYPES |}
      {| name := "Sunwing Alcudia Beach"; record := hotel_month_without_rooms |}
      "MAN" 7 "Half Board" = Normal st'.
Proof.
  eexists.
  apply (no_scraped_data_shows_demo SinRef.sin ParseIntRef.parseInt clock_2026_11_02
           Fetch.Rejected
           {| view_mode := Fetch.mode (Fetch.startup Fetch.initial Fetch.Rejected);
              selRoom := "Standard Double"; data := None; rTypes := ROOM_TYPES |}
           {| name := "Sunwing Alcudia Beach"; record := hotel_month_without_rooms |}
           "MAN" 7 "Half Board"); reflexivity.
Defined.
